(** * Streaming RAG chat backend (app.py): a shallow embedding

    The Flask application of [app.py] is embedded as Rocq functions:
    Python strings are sequences of Unicode code points, dictionaries
    parsed from JSON are association lists, a document's metadata is a
    finite map, and the effects of the handlers (reading the global
    chain, logging, raising and catching exceptions, yielding chunks of
    a streamed body) are threaded through one state-and-error monad. *)

From Stdlib Require Import String Ascii ZArith NArith DecimalString.
From stdpp Require Import base option list gmap.

Set Warnings "-register-all".

Local Open Scope N_scope.

(** ** Python strings *)

(** A Python [str] is a sequence of code points. *)
Definition pystr := list N.

(** String literals of the source (all of them ASCII). *)
Definition py (s : string) : pystr :=
  map N_of_ascii (list_ascii_of_string s).

(** The escape [\n] of Python string literals. *)
Definition nl : pystr := [10].

(** The double-quote character. *)
Definition dquote : pystr := [34].

(** [sep.join(parts)] *)
Fixpoint str_join (sep : pystr) (parts : list pystr) : pystr :=
  match parts with
  | [] => []
  | [p] => p
  | p :: rest => p ++ sep ++ str_join sep rest
  end.

(** [bool(s)] for a string: non-empty. *)
Definition str_truthy (s : pystr) : bool :=
  match s with
  | [] => false
  | _ :: _ => true
  end.

Fixpoint str_startswith (s prefix : pystr) : bool :=
  match prefix, s with
  | [], _ => true
  | _ :: _, [] => false
  | p :: prefix', c :: s' => (c =? p) && str_startswith s' prefix'
  end.

(** [sub in s] for two strings. *)
Fixpoint str_contains (s sub : pystr) : bool :=
  str_startswith s sub ||
  match s with
  | [] => false
  | _ :: s' => str_contains s' sub
  end.

(** [str(n)] for an integer. *)
Definition str_of_int (z : Z) : pystr :=
  py (NilZero.string_of_int (Z.to_int z)).

(** ** JSON values *)

(** What [json.loads] produces and [json.dumps] consumes: [None],
    booleans, integers, strings, lists and dictionaries with string
    keys, the latter in insertion order.  Numbers with a fraction or an
    exponent are not represented. *)
Inductive json : Type :=
| JNull
| JBool (b : bool)
| JNumber (n : Z)
| JStr (s : pystr)
| JArr (items : list json)
| JObj (fields : list (pystr * json)).

(** *** [json.dumps] with its default arguments

    [ensure_ascii=True], separators [", "] and [": "], no sorting. *)

Definition hex_digit (d : N) : N :=
  if d <? 10 then 48 + d else 87 + d.

(** ['{0:04x}'.format(n)] for [n < 0x10000]. *)
Definition hex4 (n : N) : pystr :=
  [hex_digit (N.shiftr n 12 mod 16); hex_digit (N.shiftr n 8 mod 16);
   hex_digit (N.shiftr n 4 mod 16); hex_digit (n mod 16)].

Definition u_escape (n : N) : pystr := [92; 117] ++ hex4 n.

(** The replacement of one character by [py_encode_basestring_ascii]:
    backslash and double quote are escaped, the printable ASCII range
    [' '..'~'] is kept, the five short escapes are used where they
    exist, and every other code point becomes [\uXXXX], as a surrogate
    pair above the basic plane. *)
Definition escape_char (c : N) : pystr :=
  if c =? 92 then [92; 92]
  else if c =? 34 then [92; 34]
  else if (32 <=? c) && (c <=? 126) then [c]
  else if c =? 8 then [92; 98]
  else if c =? 12 then [92; 102]
  else if c =? 10 then [92; 110]
  else if c =? 13 then [92; 114]
  else if c =? 9 then [92; 116]
  else if c <? 65536 then u_escape c
  else
    let n := c - 65536 in
    u_escape (N.lor 55296 (N.land (N.shiftr n 10) 1023)) ++
    u_escape (N.lor 56320 (N.land n 1023)).

Definition encode_basestring_ascii (s : pystr) : pystr :=
  dquote ++ concat (map escape_char s) ++ dquote.

Fixpoint json_dumps (v : json) : pystr :=
  match v with
  | JNull => py "null"
  | JBool true => py "true"
  | JBool false => py "false"
  | JNumber n => str_of_int n
  | JStr s => encode_basestring_ascii s
  | JArr items =>
      py "[" ++ str_join (py ", ") (map json_dumps items) ++ py "]"
  | JObj fields =>
      py "{" ++
      str_join (py ", ")
        (map (fun kv : pystr * json =>
                let (k, x) := kv in
                encode_basestring_ascii k ++ py ": " ++ json_dumps x)
             fields) ++
      py "}"
  end.

(** *** Reading an escaped string back

    What a JSON parser makes of the inside of a string literal written
    by [encode_basestring_ascii]: the two-character escapes, [\uXXXX],
    and a high surrogate followed by a low one read as one code point
    above the basic plane.  The application never reads its own
    output; this reader only serves to prove that the escaping loses
    nothing, so that the token of a record is determined by the
    record. *)

Definition unhex (c : N) : option N :=
  if (48 <=? c) && (c <=? 57) then Some (c - 48)
  else if (97 <=? c) && (c <=? 102) then Some (c - 87)
  else if (65 <=? c) && (c <=? 70) then Some (c - 55)
  else None.

Definition unhex4 (a b c d : N) : option N :=
  match unhex a, unhex b, unhex c, unhex d with
  | Some x3, Some x2, Some x1, Some x0 => Some (((x3 * 16 + x2) * 16 + x1) * 16 + x0)
  | _, _, _, _ => None
  end.

Definition is_high_surrogate (n : N) : bool := (55296 <=? n) && (n <=? 56319).
Definition is_low_surrogate (n : N) : bool := (56320 <=? n) && (n <=? 57343).

Definition from_surrogates (hi lo : N) : N :=
  65536 + (hi - 55296) * 1024 + (lo - 56320).

Definition short_escape (x : N) : option N :=
  if x =? 92 then Some 92
  else if x =? 34 then Some 34
  else if x =? 47 then Some 47
  else if x =? 98 then Some 8
  else if x =? 102 then Some 12
  else if x =? 110 then Some 10
  else if x =? 114 then Some 13
  else if x =? 116 then Some 9
  else None.

Fixpoint unescape (s : pystr) : option pystr :=
  match s with
  | [] => Some []
  | c :: r =>
      if c =? 92 then
        match r with
        | [] => None
        | x :: r1 =>
            if x =? 117 then
              match r1 with
              | a :: b :: c' :: d :: r2 =>
                  match unhex4 a b c' d with
                  | None => None
                  | Some n =>
                      if is_high_surrogate n then
                        match r2 with
                        | b1 :: u1 :: e :: f :: g :: h :: r3 =>
                            if (b1 =? 92) && (u1 =? 117) then
                              match unhex4 e f g h with
                              | Some m =>
                                  if is_low_surrogate m
                                  then cons (from_surrogates n m) <$> unescape r3
                                  else None
                              | None => None
                              end
                            else None
                        | _ => None
                        end
                      else if is_low_surrogate n then None
                      else cons n <$> unescape r2
                  end
              | _ => None
              end
            else
              match short_escape x with
              | Some c0 => cons c0 <$> unescape r1
              | None => None
              end
        end
      else cons c <$> unescape r
  end.

(** A Unicode scalar value: a code point that is not a surrogate.
    Text decoded from UTF-8 consists of these. *)
Definition scalar_value (c : N) : bool :=
  (c <? 55296) || ((57344 <=? c) && (c <? 1114112)).

Definition well_formed (s : pystr) : bool := forallb scalar_value s.

(** The numbers below [k], for checks by enumeration. *)
Definition below (k : nat) : list N := map N.of_nat (seq 0 k).

(** ** Truth value, membership and subscription of parsed JSON *)

(** [bool(v)] *)
Definition truthy (v : json) : bool :=
  match v with
  | JNull => false
  | JBool b => b
  | JNumber n => negb (Z.eqb n 0)
  | JStr s => str_truthy s
  | JArr items => match items with [] => false | _ => true end
  | JObj fields => match fields with [] => false | _ => true end
  end.

Definition pystr_eqb (a b : pystr) : bool := bool_decide (a = b).

(** [d.get(key)] on the association list of a dictionary. *)
Fixpoint dict_lookup (key : pystr) (fields : list (pystr * json)) : option json :=
  match fields with
  | [] => None
  | (k, x) :: rest => if pystr_eqb k key then Some x else dict_lookup key rest
  end.

(** ** Exceptions *)

(** The classes the handlers tell apart.  Every exception of the model
    is an instance of Python's [Exception]; [RateLimitError] is the one
    imported from [openai].  [TypeError] and [AttributeError] are raised
    by the interpreter itself on the paths below, [OtherException]
    stands for any other class. *)
Inductive exc_class : Set :=
| RateLimitError
| TypeError
| KeyError
| AttributeError
| OtherException.

#[global] Instance exc_class_eq_dec : EqDecision exc_class.
Proof. solve_decision. Defined.

(** An exception object: its class and the text [str(e)] gives. *)
Record PyExc : Set := mkExc { exc_type : exc_class; exc_str : pystr }.

(** What a Python expression evaluates to: a value, or an exception. *)
Inductive Result (A : Type) : Type :=
| Return (a : A)
| Raise (e : PyExc).
Arguments Return {A} a.
Arguments Raise {A} e.

#[global] Instance Result_ret : MRet Result := fun A a => Return a.

#[global] Instance Result_bind : MBind Result := fun A B f r =>
  match r with
  | Return a => f a
  | Raise e => Raise e
  end.

(** [type(v).__name__] *)
Definition type_name (v : json) : pystr :=
  match v with
  | JNull => py "NoneType"
  | JBool _ => py "bool"
  | JNumber _ => py "int"
  | JStr _ => py "str"
  | JArr _ => py "list"
  | JObj _ => py "dict"
  end.

(** [key in v] for a string [key]: a key of a dictionary, an element of
    a list, a substring of a string; the other types are not containers
    and the operator raises [TypeError]. *)
Definition py_in (key : pystr) (v : json) : Result bool :=
  match v with
  | JObj fields => Return (bool_decide (is_Some (dict_lookup key fields)))
  | JArr items =>
      Return (existsb (fun x => match x with
                                | JStr s => pystr_eqb s key
                                | _ => false
                                end) items)
  | JStr s => Return (str_contains s key)
  | _ =>
      Raise (mkExc TypeError
               (py "argument of type '" ++ type_name v ++ py "' is not iterable"))
  end.

(** [v[key]] for a string [key]. *)
Definition py_getitem (v : json) (key : pystr) : Result json :=
  match v with
  | JObj fields =>
      match dict_lookup key fields with
      | Some x => Return x
      | None => Raise (mkExc KeyError (py "'" ++ key ++ py "'"))
      end
  | JArr _ =>
      Raise (mkExc TypeError (py "list indices must be integers or slices, not str"))
  | JStr _ =>
      Raise (mkExc TypeError (py "string indices must be integers, not 'str'"))
  | _ =>
      Raise (mkExc TypeError
               (py "'" ++ type_name v ++ py "' object is not subscriptable"))
  end.

(** ** The pipeline object *)

(** One call of [next] on the iterator [rag_chain.stream(q)] returns a
    chunk or raises; the end of the list is [StopIteration].  Whatever
    follows a [Raised] step is what the iterator would have produced had
    it been advanced again. *)
Inductive NextResult : Type :=
| Yielded (chunk : pystr)
| Raised (e : PyExc).

(** The composed chain, seen through the one method the endpoint calls. *)
Record RagChain : Type := { stream : json -> list NextResult }.

(** ** Log records *)

Inductive Level : Set := INFO | WARNING | ERROR | CRITICAL.

(** The message of a record: a fixed text, or a text followed by the
    interpolated query (kept as the value it is). *)
Inductive LogMsg : Type :=
| Msg (text : pystr)
| MsgQuery (text : pystr) (query : json).

Record LogRecord : Type := { level : Level; message : LogMsg }.

(** ** Process state and the monad of the handlers *)

(** [rag_chain_instance_global] is the module-level variable; [log] is
    what the logger has received; [wire] is the sequence of strings
    yielded so far by the generator of the response being sent. *)
Record AppState : Type := mkState {
  rag_chain_instance_global : option RagChain;
  log : list LogRecord;
  wire : list pystr
}.

Definition M (A : Type) : Type := AppState -> Result A * AppState.

#[global] Instance M_ret : MRet M := fun A a st => (Return a, st).

#[global] Instance M_bind : MBind M := fun A B f m st =>
  match m st with
  | (Return a, st') => f a st'
  | (Raise e, st') => (Raise e, st')
  end.

Definition raise {A} (e : PyExc) : M A := fun st => (Raise e, st).

(** Evaluate an expression that may raise. *)
Definition eval {A} (r : Result A) : M A := fun st => (r, st).

Definition read_global : M (option RagChain) :=
  fun st => (Return (rag_chain_instance_global st), st).

Definition write_global (c : option RagChain) : M unit :=
  fun st => (Return tt, mkState c (log st) (wire st)).

Definition emit (l : Level) (m : LogMsg) : M unit :=
  fun st =>
    (Return tt,
     mkState (rag_chain_instance_global st)
             (log st ++ [{| level := l; message := m |}])
             (wire st)).

Module logger.
Definition info := emit INFO.
Definition warning := emit WARNING.
Definition error := emit ERROR.
Definition critical := emit CRITICAL.
End logger.

(** [yield s] in a generator whose consumer takes every item. *)
Definition yield (s : pystr) : M unit :=
  fun st =>
    (Return tt,
     mkState (rag_chain_instance_global st) (log st) (wire st ++ [s])).

(** [time.sleep(0.05)]: the pacing delay changes nothing in the state. *)
Definition time_sleep : M unit := mret tt.

(** An [except C as e: ...] clause: the test [isinstance(e, C)] and the
    body. *)
Definition clause (A : Type) : Type := (PyExc -> bool) * (PyExc -> M A).

Definition isinstance (c : exc_class) (e : PyExc) : bool :=
  bool_decide (exc_type e = c).

(** [except Exception]: every exception of the model. *)
Definition is_Exception (e : PyExc) : bool := true.

Fixpoint dispatch {A} (clauses : list (clause A)) (e : PyExc) : M A :=
  match clauses with
  | [] => raise e
  | (test, handler) :: rest =>
      if test e then handler e else dispatch rest e
  end.

(** [try: body except ...: ...], the clauses tried in order. *)
Definition try_except {A} (body : M A) (clauses : list (clause A)) : M A :=
  fun st =>
    match body st with
    | (Return a, st') => (Return a, st')
    | (Raise e, st') => dispatch clauses e st'
    end.

(** [try: body finally: cleanup] *)
Definition try_finally {A} (body : M A) (cleanup : M unit) : M A :=
  fun st =>
    match body st with
    | (r, st') =>
        match cleanup st' with
        | (Return _, st'') => (r, st'')
        | (Raise e, st'') => (Raise e, st'')
        end
    end.

(** [for chunk in it: body], over the steps of the iterator. *)
Fixpoint for_each (it : list NextResult) (body : pystr -> M unit) : M unit :=
  match it with
  | [] => mret tt
  | Yielded chunk :: rest => body chunk ;; for_each rest body
  | Raised e :: _ => raise e
  end.

(** ** Retrieved documents and the context formatter *)

(** [format(v, '')], what an f-string does with an interpolated value. *)
Class PyFormat (V : Type) := py_format : V -> pystr.

#[global] Instance pystr_format : PyFormat pystr := fun s => s.

Section Documents.
Context {V : Type} `{PyFormat V}.

(** A LangChain [Document]: its text and its metadata dictionary. *)
Record Document : Type := mkDocument {
  page_content : pystr;
  metadata : gmap pystr V
}.

(** The f-string of one document, with
    [doc.metadata.get('source', 'Unknown')] interpolated. *)
Definition format_doc (doc : Document) : pystr :=
  py "Source: " ++
  match metadata doc !! py "source" with
  | Some v => py_format v
  | None => py "Unknown"
  end ++
  nl ++ py "Content: " ++ page_content doc.

Definition format_docs (docs : list Document) : pystr :=
  match docs with
  | [] => py "No relevant context found in the documents."
  | _ :: _ => str_join (nl ++ nl) (map format_doc docs)
  end.
End Documents.

Arguments Document V : clear implicits.

(** ** Configuration and construction of the chain *)

(** The module-level variables read with [os.getenv]: [None] when the
    variable is unset. *)
Record Config : Type := {
  AZURE_OPENAI_ENDPOINT_EMBEDDINGS : option pystr;
  AZURE_OPENAI_API_KEY_EMBEDDINGS : option pystr;
  AZURE_OPENAI_EMBEDDING_DEPLOYMENT_NAME : option pystr;
  AZURE_OPENAI_API_VERSION_EMBEDDINGS : option pystr;
  AZURE_OPENAI_ENDPOINT_CHAT : option pystr;
  AZURE_OPENAI_API_KEY_CHAT : option pystr;
  AZURE_OPENAI_CHAT_DEPLOYMENT_NAME : option pystr;
  AZURE_OPENAI_API_VERSION_CHAT : option pystr;
  AZURE_AI_SEARCH_ENDPOINT : option pystr;
  AZURE_AI_SEARCH_API_KEY : option pystr;
  AZURE_AI_SEARCH_INDEX_NAME : option pystr
}.

(** [bool(v)] for such a variable: set, and not the empty string. *)
Definition env_truthy (v : option pystr) : bool :=
  match v with
  | Some s => str_truthy s
  | None => false
  end.

(** [all([...])] *)
Definition py_all (vs : list (option pystr)) : bool := forallb env_truthy vs.

Definition template : pystr :=
  str_join nl
    [ py "You are an expert AI assistant for our application. Your goal is to be insightful and proactive.";
      py "        Answer the question based on the following context.";
      py "        If the context is empty or doesn't contain the answer, clearly state that you don't have enough information from the provided documents to answer.";
      py "        Do not use any external information. Be concise in your primary answer.";
      [];
      py "        Context:";
      py "        {context}";
      [];
      py "        Question: {question}";
      [];
      py "        ---";
      py "        Primary Answer:";
      py "        [Provide a direct answer to the question based on the context. Cite sources if possible, e.g., (Source: application_docs.md)]";
      [];
      py "        ---";
      py "        Predictive Insights & Next Steps:";
      py "        Based on the question and the provided context:";
      py "        1. Are there any related topics or proactive suggestions you can offer?";
      py "        2. If the context discusses an issue or a process, what are the key implications or next logical steps?";
      py "        (If no specific predictive insights are apparent from this context, state " ++ dquote ++ py "No specific predictive insights or next steps apparent from this context." ++ dquote ++ py ")";
      py "        " ].

Section Construction.
Context {V : Type} `{PyFormat V}.
Context {Embeddings VectorStore ChatModel Retriever Prompt : Type}.

(** The constructors of the client libraries.  Each may raise; what
    it does for given arguments is fixed by the environment the
    process starts in.  [AzureChatOpenAI] also receives the constants
    [temperature=0.3] and [max_tokens=1500]; [AzureSearch] receives
    [embeddings.embed_query]; [compose] is the [|] pipeline of
    retriever, formatter, prompt, model and [StrOutputParser]. *)
Record Clients : Type := {
  AzureOpenAIEmbeddings :
    option pystr -> option pystr -> option pystr -> option pystr -> Result Embeddings;
  AzureSearch :
    option pystr -> option pystr -> option pystr -> Embeddings -> Result VectorStore;
  AzureChatOpenAI :
    option pystr -> option pystr -> option pystr -> option pystr -> Result ChatModel;
  as_retriever : VectorStore -> pystr -> Result Retriever;
  from_template : pystr -> Result Prompt;
  compose :
    Retriever -> (list (Document V) -> pystr) -> Prompt -> ChatModel -> Result RagChain
}.

Variable env : Config.
Variable clients : Clients.

(** The three lists handed to [all]. *)
Definition embeddings_group : list (option pystr) :=
  [AZURE_OPENAI_ENDPOINT_EMBEDDINGS env; AZURE_OPENAI_API_KEY_EMBEDDINGS env;
   AZURE_OPENAI_EMBEDDING_DEPLOYMENT_NAME env; AZURE_OPENAI_API_VERSION_EMBEDDINGS env].

Definition chat_group : list (option pystr) :=
  [AZURE_OPENAI_ENDPOINT_CHAT env; AZURE_OPENAI_API_KEY_CHAT env;
   AZURE_OPENAI_CHAT_DEPLOYMENT_NAME env; AZURE_OPENAI_API_VERSION_CHAT env].

Definition search_group : list (option pystr) :=
  [AZURE_AI_SEARCH_ENDPOINT env; AZURE_AI_SEARCH_API_KEY env;
   AZURE_AI_SEARCH_INDEX_NAME env].

(** The constructor calls of the [try] block, in order; the first one
    that raises ends the block. *)
Definition construct : Result RagChain :=
  embeddings ← AzureOpenAIEmbeddings clients
                 (AZURE_OPENAI_EMBEDDING_DEPLOYMENT_NAME env)
                 (AZURE_OPENAI_ENDPOINT_EMBEDDINGS env)
                 (AZURE_OPENAI_API_KEY_EMBEDDINGS env)
                 (AZURE_OPENAI_API_VERSION_EMBEDDINGS env);
  vector_store ← AzureSearch clients
                   (AZURE_AI_SEARCH_ENDPOINT env)
                   (AZURE_AI_SEARCH_API_KEY env)
                   (AZURE_AI_SEARCH_INDEX_NAME env)
                   embeddings;
  llm ← AzureChatOpenAI clients
          (AZURE_OPENAI_CHAT_DEPLOYMENT_NAME env)
          (AZURE_OPENAI_ENDPOINT_CHAT env)
          (AZURE_OPENAI_API_KEY_CHAT env)
          (AZURE_OPENAI_API_VERSION_CHAT env);
  retriever ← as_retriever clients vector_store (py "hybrid");
  prompt ← from_template clients template;
  compose clients retriever format_docs prompt llm.

Definition create_rag_chain : M (option RagChain) :=
  logger.info (Msg (py "Attempting to initialize RAG chain..."));;
  if negb (py_all embeddings_group) then
    logger.error
      (Msg (py "Azure OpenAI Embeddings environment variables are not fully set."));;
    mret None
  else if negb (py_all chat_group) then
    logger.error
      (Msg (py "Azure OpenAI Chat environment variables are not fully set."));;
    mret None
  else if negb (py_all search_group) then
    logger.error
      (Msg (py "Azure AI Search environment variables are not fully set."));;
    mret None
  else
    try_except
      (rag_chain ← eval construct;
       logger.info (Msg (py "RAG chain initialized successfully."));;
       mret (Some rag_chain))
      [ (is_Exception,
         fun e =>
           logger.error (Msg (py "Failed to initialize RAG chain: " ++ exc_str e));;
           mret None) ].

(** The [with app.app_context():] block run when the module is loaded. *)
Definition startup : M unit :=
  chain ← create_rag_chain;
  write_global chain;;
  match chain with
  | None =>
      logger.critical
        (Msg (py "CRITICAL: RAG Chain could not be initialized on startup. The /chat endpoint will not work."))
  | Some _ => mret tt
  end.
End Construction.

(** ** The Flask application *)

(** A request, as far as the handler looks at it: what
    [request.get_json()] evaluates to.  It returns the parsed body,
    [None] for the JSON text null, or raises: Flask raises for a body
    that does not parse and, since version 2.1, for a request that
    carries no JSON body at all (415 Unsupported Media Type without the
    JSON content type, 400 Bad Request for an empty body with it). *)
Record Request : Type := { get_json : Result json }.

(** The body of a response: a JSON document, or the generator Flask
    iterates while it sends the response. *)
Inductive Body : Type :=
| JsonBody (doc : json)
| StreamBody (generator : M unit).

Record Response : Type := mkResponse {
  status : Z;
  mimetype : pystr;
  body : Body
}.

(** [return jsonify(doc), code] *)
Definition jsonify (doc : json) (code : Z) : Response :=
  mkResponse code (py "application/json") (JsonBody doc).

(** [Response(generator, mimetype=...)], status 200. *)
Definition Response_ (generator : M unit) (mime : pystr) : Response :=
  mkResponse 200 mime (StreamBody generator).

(** The SSE record of one token: the f-string
    [data: {json.dumps({'token': chunk})}\n\n]. *)
Definition sse_token (chunk : pystr) : pystr :=
  py "data: " ++ json_dumps (JObj [(py "token", JStr chunk)]) ++ nl ++ nl.

(** The SSE record of an error: [event: error\ndata: {error_payload}\n\n]. *)
Definition sse_error (error_payload : pystr) : pystr :=
  py "event: error" ++ nl ++ py "data: " ++ error_payload ++ nl ++ nl.

(** The body of the [for] loop of [generate_stream]. *)
Definition forward_chunk (chunk : pystr) : M unit :=
  if str_truthy chunk then
    yield (sse_token chunk);;
    time_sleep
  else mret tt.

(** The generator nested in [chat_endpoint].  It reads the global chain
    when it is advanced, not when it is created. *)
Definition generate_stream (user_query : json) : M unit :=
  try_finally
    (try_except
       (chain ← read_global;
        match chain with
        | None =>
            raise (mkExc AttributeError
                     (py "'NoneType' object has no attribute 'stream'"))
        | Some rag_chain =>
            for_each (stream rag_chain user_query) forward_chunk
        end)
       [ (isinstance RateLimitError,
          fun rle_stream =>
            logger.warning
              (Msg (py "Rate limit exceeded during stream: " ++ exc_str rle_stream));;
            yield
              (sse_error
                 (json_dumps
                    (JObj [(py "error",
                            JStr (py "API rate limit exceeded during stream. Please try again later."));
                           (py "code", JNumber 429)]))));
         (is_Exception,
          fun e_stream =>
            logger.error
              (Msg (py "Error during stream generation: " ++ exc_str e_stream));;
            yield
              (sse_error
                 (json_dumps
                    (JObj [(py "error",
                            JStr (py "An error occurred during streaming: "
                                  ++ exc_str e_stream))])))) ])
    (logger.info (MsgQuery (py "Stream ended for query: ") user_query)).

(** The statements of the [try] block of [chat_endpoint]. *)
Definition chat_request (request : Request) : M Response :=
  data ← eval (get_json request);
  missing ← (if negb (truthy data) then mret true
             else found ← eval (py_in (py "query") data);
                  mret (negb found));
  if (missing : bool) then
    logger.warning (Msg (py "Received bad request: 'query' field missing."));;
    mret (jsonify
            (JObj [(py "error", JStr (py "Missing 'query' field in request body"))])
            400)
  else
    user_query ← eval (py_getitem data (py "query"));
    logger.info (MsgQuery (py "Received query for streaming: ") user_query);;
    mret (Response_ (generate_stream user_query) (py "text/event-stream")).

(** [POST /chat] *)
Definition chat_endpoint (request : Request) : M Response :=
  chain ← read_global;
  match chain with
  | None =>
      logger.error (Msg (py "RAG chain is not initialized. Cannot process request."));;
      mret (jsonify
              (JObj [(py "error",
                      JStr (py "RAG chain not initialized. Server configuration issue."))])
              500)
  | Some _ =>
      try_except (chat_request request)
        [ (isinstance RateLimitError,
           fun rle =>
             logger.warning
               (Msg (py "Rate limit exceeded (before stream): " ++ exc_str rle));;
             mret (jsonify
                     (JObj [(py "error",
                             JStr (py "API rate limit exceeded. Please try again later."))])
                     429));
          (is_Exception,
           fun e =>
             logger.error
               (Msg (py "Error processing chat request (before stream): " ++ exc_str e));;
             mret (jsonify
                     (JObj [(py "error",
                             JStr (py "An internal error occurred: " ++ exc_str e))])
                     500)) ]
  end.

(** [GET /health] *)
Definition health_check : M Response :=
  chain ← read_global;
  match chain with
  | Some _ =>
      mret (jsonify
              (JObj [(py "status", JStr (py "ok"));
                     (py "message",
                      JStr (py "Flask application is running and RAG chain is initialized."));
                     (py "rag_chain_initialized", JBool true)])
              200)
  | None =>
      logger.error (Msg (py "Health check failed: RAG chain is not initialized."));;
      mret (jsonify
              (JObj [(py "status", JStr (py "error"));
                     (py "message",
                      JStr (py "Flask application is running, but the RAG chain failed to initialize. Check server logs for details."));
                     (py "rag_chain_initialized", JBool false)])
              503)
  end.

(** What the client of one request receives: the status line and
    content type, and then either the JSON document or the strings the
    generator yields until it is exhausted. *)
Inductive Received : Type :=
| ReceivedJson (code : Z) (doc : json)
| ReceivedStream (code : Z) (mime : pystr) (events : list pystr).

Definition read_wire : M (list pystr) := fun st => (Return (wire st), st).

(** Flask calling a view and sending its response; the events of a
    streamed body are what the generator adds to the wire. *)
Definition serve (view : M Response) : M Received :=
  response ← view;
  match body response with
  | JsonBody doc => mret (ReceivedJson (status response) doc)
  | StreamBody generator =>
      before ← read_wire;
      generator;;
      after ← read_wire;
      mret (ReceivedStream (status response) (mimetype response)
              (drop (length before) after))
  end.

(** ** Vocabulary of the statements *)

(** The token records of a sequence of chunks: one per non-empty chunk,
    in order. *)
Definition token_events (chunks : list pystr) : list pystr :=
  sse_token <$> filter (λ c, c ≠ []) chunks.

(** An SSE record that names the event [error]. *)
Definition is_error_event (record : pystr) : bool :=
  str_startswith record (py "event: error").

(** The payloads of the two error records. *)
Definition rate_limit_payload : json :=
  JObj [(py "error",
         JStr (py "API rate limit exceeded during stream. Please try again later."));
        (py "code", JNumber 429)].

Definition stream_error_payload (e : PyExc) : json :=
  JObj [(py "error", JStr (py "An error occurred during streaming: " ++ exc_str e))].





(** The groups of the configuration with the message logged for each,
    in the order of the checks. *)
Definition groups_in_order (env : Config) : list (list (option pystr) * pystr) :=
  [(embeddings_group env,
    py "Azure OpenAI Embeddings environment variables are not fully set.");
   (chat_group env,
    py "Azure OpenAI Chat environment variables are not fully set.");
   (search_group env,
    py "Azure AI Search environment variables are not fully set.")].

(** A chain whose stream goes through the given steps, whatever the
    query. *)
Definition scripted (steps : list NextResult) : RagChain :=
  {| stream := fun _ => steps |}.

(** A chain that answers the empty query with one chunk and any other
    query with nothing. *)
Definition answers_empty_query : RagChain :=
  {| stream := fun q =>
       match q with
       | JStr [] => [Yielded (py "pong")]
       | _ => []
       end |}.

Definition count_error_events (events : list pystr) : nat :=
  length (List.filter is_error_event events).

Definition stream_ended (q : json) : LogRecord :=
  {| level := INFO; message := MsgQuery (py "Stream ended for query: ") q |}.

Definition received_query (q : json) : LogRecord :=
  {| level := INFO; message := MsgQuery (py "Received query for streaming: ") q |}.

(** The chunks an iterator returns before it raises or ends, and the
    exception it raises first, if any. *)
Fixpoint yielded_prefix (it : list NextResult) : list pystr :=
  match it with
  | Yielded chunk :: rest => chunk :: yielded_prefix rest
  | _ => []
  end.

Fixpoint first_raised (it : list NextResult) : option PyExc :=
  match it with
  | [] => None
  | Yielded _ :: rest => first_raised rest
  | Raised e :: _ => Some e
  end.

(** The records a client receives for an iterator: the token records
    of what it returns, then the error record of what it raises. *)
Definition error_event (e : PyExc) : pystr :=
  sse_error
    (json_dumps
       (if isinstance RateLimitError e then rate_limit_payload
        else stream_error_payload e)).

Definition stream_events (it : list NextResult) : list pystr :=
  token_events (yielded_prefix it) ++
  match first_raised it with
  | None => []
  | Some e => [error_event e]
  end.

(** The bodies of the JSON error responses of [chat_endpoint]. *)
Definition missing_query_body : json :=
  JObj [(py "error", JStr (py "Missing 'query' field in request body"))].

Definition not_initialized_body : json :=
  JObj [(py "error", JStr (py "RAG chain not initialized. Server configuration issue."))].

Definition pre_stream_rate_limit_body : json :=
  JObj [(py "error", JStr (py "API rate limit exceeded. Please try again later."))].

Definition internal_error_body (e : PyExc) : json :=
  JObj [(py "error", JStr (py "An internal error occurred: " ++ exc_str e))].

(** The log records of the two [except] clauses of [chat_endpoint]. *)
Definition pre_stream_rate_limit_record (e : PyExc) : LogRecord :=
  {| level := WARNING;
     message := Msg (py "Rate limit exceeded (before stream): " ++ exc_str e) |}.

Definition pre_stream_error_record (e : PyExc) : LogRecord :=
  {| level := ERROR;
     message := Msg (py "Error processing chat request (before stream): " ++ exc_str e) |}.

(** Every configuration group is fully set. *)
Definition config_complete (env : Config) : bool :=
  py_all (embeddings_group env) && py_all (chat_group env) && py_all (search_group env).

(** A configuration with every variable set, and client constructors
    that succeed with placeholder objects and a chain that produces
    nothing. *)
Definition demo_env : Config :=
  {| AZURE_OPENAI_ENDPOINT_EMBEDDINGS := Some (py "https://emb.example");
     AZURE_OPENAI_API_KEY_EMBEDDINGS := Some (py "key-e");
     AZURE_OPENAI_EMBEDDING_DEPLOYMENT_NAME := Some (py "embedding");
     AZURE_OPENAI_API_VERSION_EMBEDDINGS := Some (py "2024-02-01");
     AZURE_OPENAI_ENDPOINT_CHAT := Some (py "https://chat.example");
     AZURE_OPENAI_API_KEY_CHAT := Some (py "key-c");
     AZURE_OPENAI_CHAT_DEPLOYMENT_NAME := Some (py "chat");
     AZURE_OPENAI_API_VERSION_CHAT := Some (py "2024-02-01");
     AZURE_AI_SEARCH_ENDPOINT := Some (py "https://search.example");
     AZURE_AI_SEARCH_API_KEY := Some (py "key-s");
     AZURE_AI_SEARCH_INDEX_NAME := Some (py "docs") |}.

Definition stub_clients : @Clients pystr unit unit unit unit unit :=
  {| AzureOpenAIEmbeddings := fun _ _ _ _ => Return tt;
     AzureSearch := fun _ _ _ _ => Return tt;
     AzureChatOpenAI := fun _ _ _ _ => Return tt;
     as_retriever := fun _ _ => Return tt;
     from_template := fun _ => Return tt;
     compose := fun _ _ _ _ => Return (scripted []) |}.

(** The states before any request: no chain, nothing logged or sent. *)
Definition initial_state : AppState := mkState None [] [].

(** The bodies of the two answers of [health_check]. *)
Definition healthy_body : json :=
  JObj [(py "status", JStr (py "ok"));
        (py "message",
         JStr (py "Flask application is running and RAG chain is initialized."));
        (py "rag_chain_initialized", JBool true)].

Definition unhealthy_body : json :=
  JObj [(py "status", JStr (py "error"));
        (py "message",
         JStr (py "Flask application is running, but the RAG chain failed to initialize. Check server logs for details."));
        (py "rag_chain_initialized", JBool false)].

Definition health_failed_record : LogRecord :=
  {| level := ERROR;
     message := Msg (py "Health check failed: RAG chain is not initialized.") |}.

(** The printable ASCII range, which holds no line break. *)
Definition printable_ascii (c : N) : bool := (32 <=? c) && (c <=? 126).

(** The two shapes of a record on the wire: one [data:] line, or an
    [event: error] line and one [data:] line, closed by a blank line. *)
Definition data_record (line : pystr) : pystr :=
  py "data: " ++ line ++ nl ++ nl.

Definition error_record (line : pystr) : pystr :=
  py "event: error" ++ nl ++ py "data: " ++ line ++ nl ++ nl.

Definition well_framed (record : pystr) : Prop :=
  ∃ line,
    forallb printable_ascii line = true ∧
    (record = data_record line ∨ record = error_record line).

(** A response that is a JSON document with the single member [error]. *)
Definition is_error_document (response : Response) : Prop :=
  mimetype response = py "application/json" ∧
  ∃ text, body response = JsonBody (JObj [(py "error", JStr text)]).

(** Flask serving one [POST /chat] after the other. *)
Fixpoint serve_all (requests : list Request) : M unit :=
  match requests with
  | [] => mret tt
  | request :: rest => serve (chat_endpoint request);; serve_all rest
  end.

(** The log records of the handlers of [generate_stream]. *)
Definition stream_failure_record (e : PyExc) : LogRecord :=
  if isinstance RateLimitError e then
    {| level := WARNING;
       message := Msg (py "Rate limit exceeded during stream: " ++ exc_str e) |}
  else
    {| level := ERROR;
       message := Msg (py "Error during stream generation: " ++ exc_str e) |}.

(** The exception of [None.stream]. *)
Definition no_stream_attribute : PyExc :=
  mkExc AttributeError (py "'NoneType' object has no attribute 'stream'").

(** The sentinel of [format_docs]. *)
Definition no_context : pystr := py "No relevant context found in the documents.".

(** The log records of [create_rag_chain] and of the start-up block. *)
Definition attempt_record : LogRecord :=
  {| level := INFO; message := Msg (py "Attempting to initialize RAG chain...") |}.

Definition initialized_record : LogRecord :=
  {| level := INFO; message := Msg (py "RAG chain initialized successfully.") |}.

Definition construction_failed_record (e : PyExc) : LogRecord :=
  {| level := ERROR; message := Msg (py "Failed to initialize RAG chain: " ++ exc_str e) |}.

Definition critical_record : LogRecord :=
  {| level := CRITICAL;
     message := Msg (py "CRITICAL: RAG Chain could not be initialized on startup. The /chat endpoint will not work.") |}.

Definition incomplete_messages : list pystr :=
  [py "Azure OpenAI Embeddings environment variables are not fully set.";
   py "Azure OpenAI Chat environment variables are not fully set.";
   py "Azure AI Search environment variables are not fully set."].

(** Every variable of the configuration, in the order of the checks. *)
Definition all_variables (env : Config) : list (option pystr) :=
  embeddings_group env ++ chat_group env ++ search_group env.

(** A configuration whose search key is set to the empty string. *)
Definition env_empty_key : Config :=
  {| AZURE_OPENAI_ENDPOINT_EMBEDDINGS := Some (py "https://emb.example");
     AZURE_OPENAI_API_KEY_EMBEDDINGS := Some (py "key-e");
     AZURE_OPENAI_EMBEDDING_DEPLOYMENT_NAME := Some (py "embedding");
     AZURE_OPENAI_API_VERSION_EMBEDDINGS := Some (py "2024-02-01");
     AZURE_OPENAI_ENDPOINT_CHAT := Some (py "https://chat.example");
     AZURE_OPENAI_API_KEY_CHAT := Some (py "key-c");
     AZURE_OPENAI_CHAT_DEPLOYMENT_NAME := Some (py "chat");
     AZURE_OPENAI_API_VERSION_CHAT := Some (py "2024-02-01");
     AZURE_AI_SEARCH_ENDPOINT := Some (py "https://search.example");
     AZURE_AI_SEARCH_API_KEY := Some [];
     AZURE_AI_SEARCH_INDEX_NAME := Some (py "docs") |}.

(** Client constructors of which the search client refuses its key. *)
Definition search_refused : PyExc := mkExc OtherException (py "403 Forbidden").

Definition failing_clients : @Clients pystr unit unit unit unit unit :=
  {| AzureOpenAIEmbeddings := fun _ _ _ _ => Return tt;
     AzureSearch := fun _ _ _ _ => Raise search_refused;
     AzureChatOpenAI := fun _ _ _ _ => Return tt;
     as_retriever := fun _ _ => Return tt;
     from_template := fun _ => Return tt;
     compose := fun _ _ _ _ => Return (scripted []) |}.

(** A printable ASCII character other than the double quote and the
    backslash. *)
Definition plain_ascii (c : N) : bool :=
  printable_ascii c && negb (c =? 34) && negb (c =? 92).

(** A POST whose JSON body is the dictionary [fields]. *)
Definition post_json (fields : list (pystr * json)) : Request :=
  {| get_json := Return (JObj fields) |}.

(** * Properties *)

Arguments py : simpl never.
Arguments json_dumps : simpl never.
Arguments sse_token : simpl never.
Arguments sse_error : simpl never.
Arguments truthy : simpl never.
Arguments dict_lookup : simpl never.

(** Unfolding the operations of the monad runs a handler on a state. *)
Create HintDb pyrun.
#[global] Hint Unfold mbind mret M_bind M_ret Result_bind Result_ret raise eval
  read_global write_global read_wire emit yield time_sleep
  logger.info logger.warning logger.error logger.critical
  try_except try_finally : pyrun.

Ltac run := repeat (autounfold with pyrun; simpl).

(** ** The streaming loop *)

Lemma for_each_yielded chunks tail g l w :
  for_each (map Yielded chunks ++ tail) forward_chunk (mkState g l w) =
  for_each tail forward_chunk (mkState g l (w ++ token_events chunks)).
Proof.
  revert w. induction chunks as [|c cs IH]; intros w.
  - unfold token_events. simpl. by rewrite app_nil_r.
  - destruct c as [|x c]; simpl; unfold forward_chunk at 1; run.
    + apply IH.
    + rewrite IH. unfold token_events. rewrite filter_cons_True by done.
      rewrite fmap_cons. by rewrite <- app_assoc.
Qed.

(** The generator on an iterator that is exhausted after [chunks]. *)
Lemma generate_stream_exhausted rag_chain q chunks l w :
  stream rag_chain q = map Yielded chunks →
  generate_stream q (mkState (Some rag_chain) l w) =
  (Return tt,
   mkState (Some rag_chain)
     (l ++ [stream_ended q])
     (w ++ token_events chunks)).
Proof.
  intros Hs. unfold generate_stream. run. rewrite Hs.
  rewrite <- (app_nil_r (map Yielded chunks)), for_each_yielded. by run.
Qed.

(** The generator on an iterator that raises after [chunks]. *)
Lemma generate_stream_raised rag_chain q chunks e rest l w :
  stream rag_chain q = map Yielded chunks ++ Raised e :: rest →
  generate_stream q (mkState (Some rag_chain) l w) =
  (Return tt,
   if isinstance RateLimitError e then
     mkState (Some rag_chain)
       (l ++ [{| level := WARNING;
                 message := Msg (py "Rate limit exceeded during stream: " ++ exc_str e) |}]
          ++ [stream_ended q])
       (w ++ token_events chunks ++ [sse_error (json_dumps rate_limit_payload)])
   else
     mkState (Some rag_chain)
       (l ++ [{| level := ERROR;
                 message := Msg (py "Error during stream generation: " ++ exc_str e) |}]
          ++ [stream_ended q])
       (w ++ token_events chunks ++ [sse_error (json_dumps (stream_error_payload e))])).
Proof.
  intros Hs. unfold generate_stream. run. rewrite Hs, for_each_yielded. run.
  destruct (isinstance RateLimitError e); run; by rewrite <- !app_assoc.
Qed.

(** ** The endpoint up to the streaming response *)

Lemma lookup_some_truthy key fields (x : json) :
  dict_lookup key fields = Some x → truthy (JObj fields) = true.
Proof. by destruct fields. Qed.

(** A body with a [query] member and a chain in place: the handler
    returns the streaming response without touching the chain. *)
Lemma chat_endpoint_opens_stream rag_chain fields q l w :
  dict_lookup (py "query") fields = Some q →
  chat_endpoint (post_json fields) (mkState (Some rag_chain) l w) =
  (Return (Response_ (generate_stream q) (py "text/event-stream")),
   mkState (Some rag_chain) (l ++ [received_query q]) w).
Proof.
  intros Hq. unfold chat_endpoint, chat_request, post_json. run.
  rewrite (lookup_some_truthy _ _ _ Hq). run.
  rewrite Hq. rewrite bool_decide_eq_true_2 by eauto. by run.
Qed.

Lemma token_event_not_error chunk : is_error_event (sse_token chunk) = false.
Proof. reflexivity. Qed.

Lemma count_error_events_tokens chunks tail :
  count_error_events (token_events chunks ++ tail) = count_error_events tail.
Proof.
  unfold count_error_events, token_events.
  induction (filter (λ c, c ≠ []) chunks) as [|c cs IH]; [done|].
  rewrite fmap_cons. simpl. apply IH.
Qed.

Lemma sse_error_is_error payload : is_error_event (sse_error payload) = true.
Proof. reflexivity. Qed.

Lemma serve_stream rag_chain fields q l w st' :
  dict_lookup (py "query") fields = Some q →
  generate_stream q (mkState (Some rag_chain) (l ++ [received_query q]) w) =
    (Return tt, st') →
  serve (chat_endpoint (post_json fields)) (mkState (Some rag_chain) l w) =
  (Return (ReceivedStream 200 (py "text/event-stream") (drop (length w) (wire st'))),
   st').
Proof.
  intros Hq Hg. unfold serve.
  unfold mbind at 1, M_bind at 1.
  rewrite (chat_endpoint_opens_stream _ _ _ _ _ Hq). simpl.
  run. rewrite Hg. by run.
Qed.


(** ** Escaping can be undone *)

Lemma in_below n k : (n < N.of_nat k)%N → In n (below k).
Proof.
  intros Hn. unfold below. apply in_map_iff. exists (N.to_nat n).
  split; [apply N2Nat.id|]. apply in_seq. lia.
Qed.

Lemma below_forall (P : N → bool) k :
  forallb P (below k) = true → ∀ n, (n < N.of_nat k)%N → P n = true.
Proof.
  intros Hall n Hn. rewrite forallb_forall in Hall. apply Hall, in_below, Hn.
Qed.

Lemma unhex_hex_digit d : d < 16 → unhex (hex_digit d) = Some d.
Proof.
  intros Hd.
  assert (Hall : forallb
            (λ d, match unhex (hex_digit d) with Some x => x =? d | None => false end)
            (below 16) = true) by (vm_compute; reflexivity).
  pose proof (below_forall _ _ Hall d Hd) as Hx. simpl in Hx.
  destruct (unhex (hex_digit d)) as [x|]; [|discriminate].
  apply N.eqb_eq in Hx. by subst.
Qed.

Lemma unhex4_hex4 n :
  n < 65536 →
  unhex4 (hex_digit (N.shiftr n 12 mod 16)) (hex_digit (N.shiftr n 8 mod 16))
         (hex_digit (N.shiftr n 4 mod 16)) (hex_digit (n mod 16)) = Some n.
Proof.
  intros Hn. unfold unhex4.
  rewrite !unhex_hex_digit by (apply N.mod_lt; lia).
  f_equal. rewrite !N.shiftr_div_pow2.
  change (2 ^ 12) with 4096. change (2 ^ 8) with 256. change (2 ^ 4) with 16.
  zify. Z.to_euclidean_division_equations. lia.
Qed.

Lemma lor_high a : a < 1024 → N.lor 55296 a = 55296 + a.
Proof.
  intros Ha.
  assert (Hall : forallb (λ a, N.lor 55296 a =? 55296 + a) (below 1024) = true)
    by (vm_compute; reflexivity).
  apply N.eqb_eq. exact (below_forall _ _ Hall a Ha).
Qed.

Lemma lor_low a : a < 1024 → N.lor 56320 a = 56320 + a.
Proof.
  intros Ha.
  assert (Hall : forallb (λ a, N.lor 56320 a =? 56320 + a) (below 1024) = true)
    by (vm_compute; reflexivity).
  apply N.eqb_eq. exact (below_forall _ _ Hall a Ha).
Qed.

Lemma unescape_plain c r : c ≠ 92 → unescape (c :: r) = cons c <$> unescape r.
Proof. intros Hc. simpl. by rewrite (proj2 (N.eqb_neq c 92) Hc). Qed.

Lemma unescape_u_escape n r :
  n < 65536 →
  unescape (u_escape n ++ r) =
  if is_high_surrogate n then
    match r with
    | b1 :: u1 :: e :: f :: g :: h :: r3 =>
        if (b1 =? 92) && (u1 =? 117) then
          match unhex4 e f g h with
          | Some m =>
              if is_low_surrogate m
              then cons (from_surrogates n m) <$> unescape r3
              else None
          | None => None
          end
        else None
    | _ => None
    end
  else if is_low_surrogate n then None
  else cons n <$> unescape r.
Proof.
  intros Hn. unfold u_escape, hex4.
  change (unescape (([92; 117] ++ [?a; ?b; ?c; ?d]) ++ r))
    with (match unhex4 a b c d with
          | None => None
          | Some n =>
              if is_high_surrogate n then
                match r with
                | b1 :: u1 :: e :: f :: g :: h :: r3 =>
                    if (b1 =? 92) && (u1 =? 117) then
                      match unhex4 e f g h with
                      | Some m =>
                          if is_low_surrogate m
                          then cons (from_surrogates n m) <$> unescape r3
                          else None
                      | None => None
                      end
                    else None
                | _ => None
                end
              else if is_low_surrogate n then None
              else cons n <$> unescape r
          end).
  by rewrite (unhex4_hex4 n Hn).
Qed.

Lemma unescape_pair hi lo r :
  hi < 65536 → lo < 65536 →
  is_high_surrogate hi = true → is_low_surrogate lo = true →
  unescape (u_escape hi ++ u_escape lo ++ r) =
  cons (from_surrogates hi lo) <$> unescape r.
Proof.
  intros Hhi Hlo Hh Hl. rewrite unescape_u_escape, Hh by done.
  cbv beta iota delta [app u_escape hex4].
  rewrite !N.eqb_refl. cbv beta iota delta [andb].
  by rewrite unhex4_hex4, Hl.
Qed.

Lemma surrogates_of c :
  65536 ≤ c → c < 1114112 →
  N.lor 55296 (N.land (N.shiftr (c - 65536) 10) 1023) = 55296 + (c - 65536) / 1024 ∧
  N.lor 56320 (N.land (c - 65536) 1023) = 56320 + (c - 65536) mod 1024.
Proof.
  intros Hlo Hhi.
  change 1023 with (N.ones 10). rewrite !N.land_ones, N.shiftr_div_pow2.
  change (2 ^ 10) with 1024.
  assert ((c - 65536) / 1024 < 1024) by (apply N.Div0.div_lt_upper_bound; lia).
  rewrite (N.mod_small ((c - 65536) / 1024)) by done.
  rewrite lor_high by done. rewrite lor_low by (apply N.mod_lt; lia). done.
Qed.

Lemma unescape_escape_char c r :
  scalar_value c = true →
  unescape (escape_char c ++ r) = cons c <$> unescape r.
Proof.
  intros Hc. unfold escape_char.
  destruct (N.eqb_spec c 92) as [->|H92]; [reflexivity|].
  destruct (N.eqb_spec c 34) as [->|H34]; [reflexivity|].
  destruct ((32 <=? c) && (c <=? 126)); [by apply unescape_plain|].
  destruct (N.eqb_spec c 8) as [->|H8]; [reflexivity|].
  destruct (N.eqb_spec c 12) as [->|H12]; [reflexivity|].
  destruct (N.eqb_spec c 10) as [->|H10]; [reflexivity|].
  destruct (N.eqb_spec c 13) as [->|H13]; [reflexivity|].
  destruct (N.eqb_spec c 9) as [->|H9]; [reflexivity|].
  unfold scalar_value in Hc.
  destruct (N.ltb_spec c 65536) as [Hlt|Hge].
  - rewrite unescape_u_escape by done.
    unfold is_high_surrogate, is_low_surrogate.
    destruct (N.leb_spec 55296 c), (N.leb_spec c 56319), (N.leb_spec 56320 c),
      (N.leb_spec c 57343); simpl; try done;
      destruct (N.ltb_spec c 55296); destruct (N.leb_spec 57344 c);
      simpl in Hc; try done; lia.
  - assert (Hhi : c < 1114112).
    { destruct (N.ltb_spec c 55296); [lia|].
      destruct (N.leb_spec 57344 c); [|done].
      destruct (N.ltb_spec c 1114112); [done|done]. }
    cbv zeta. destruct (surrogates_of c Hge Hhi) as [-> ->].
    assert (Hq : (c - 65536) / 1024 < 1024) by (apply N.Div0.div_lt_upper_bound; lia).
    assert (Hm : (c - 65536) mod 1024 < 1024) by (apply N.mod_lt; lia).
    pose proof (N.div_mod (c - 65536) 1024) as Hdm.
    set (q := (c - 65536) / 1024) in *. set (m := (c - 65536) mod 1024) in *.
    clearbody q m.
    rewrite <- app_assoc.
    rewrite unescape_pair;
      [|lia|lia
       |unfold is_high_surrogate; apply andb_true_intro; split; apply N.leb_le; lia
       |unfold is_low_surrogate; apply andb_true_intro; split; apply N.leb_le; lia].
    replace (from_surrogates (55296 + q) (56320 + m)) with c; [done|].
    unfold from_surrogates. lia.
Qed.

Lemma unescape_escape s :
  well_formed s = true → unescape (concat (map escape_char s)) = Some s.
Proof.
  induction s as [|c s IH]; [done|]. simpl. intros Hs.
  apply andb_prop in Hs as [Hc Hs].
  rewrite unescape_escape_char by done. by rewrite IH.
Qed.

Lemma encode_basestring_ascii_inj s s' :
  well_formed s = true → well_formed s' = true →
  encode_basestring_ascii s = encode_basestring_ascii s' → s = s'.
Proof.
  intros Hs Hs' Heq. unfold encode_basestring_ascii in Heq.
  apply app_inv_head, app_inv_tail in Heq.
  apply (f_equal unescape) in Heq. rewrite !unescape_escape in Heq by done.
  by injection Heq.
Qed.

Lemma sse_token_text c :
  sse_token c =
  py "data: {" ++ dquote ++ py "token" ++ dquote ++ py ": " ++
  encode_basestring_ascii c ++ py "}" ++ nl ++ nl.
Proof. unfold sse_token, json_dumps. simpl. by rewrite <- !app_assoc. Qed.

Lemma sse_token_inj c c' :
  well_formed c = true → well_formed c' = true →
  sse_token c = sse_token c' → c = c'.
Proof.
  intros Hc Hc' Heq. rewrite !sse_token_text in Heq.
  repeat apply app_inv_head in Heq.
  apply app_inv_tail in Heq. by apply encode_basestring_ascii_inj.
Qed.

Lemma map_sse_token_inj (toks toks' : list pystr) :
  forallb well_formed toks = true → forallb well_formed toks' = true →
  map sse_token toks = map sse_token toks' → toks = toks'.
Proof.
  revert toks'. induction toks as [|c toks IH]; intros [|c' toks'] Hw Hw' Heq;
    try done.
  cbn [forallb] in Hw, Hw'. cbn [map] in Heq.
  apply andb_prop in Hw as [Hc Ht]. apply andb_prop in Hw' as [Hc' Ht'].
  assert (Hh : sse_token c = sse_token c')
    by exact (f_equal (λ l, match l with x :: _ => x | [] => [] end) Heq).
  assert (Htl : map sse_token toks = map sse_token toks')
    by exact (f_equal (λ l, match l with _ :: t => t | [] => [] end) Heq).
  f_equal; [by apply sse_token_inj|by apply IH].
Qed.

Lemma token_events_filter chunks :
  token_events chunks = map sse_token (List.filter str_truthy chunks).
Proof.
  unfold token_events. induction chunks as [|[|x c] cs IH]; [done| |].
  - rewrite filter_cons_False by (intros ?; done). exact IH.
  - rewrite filter_cons_True by done. simpl. by rewrite <- IH.
Qed.

Lemma forallb_filter_weaken {A} (P Q : A → bool) l :
  forallb P l = true → forallb P (List.filter Q l) = true.
Proof.
  induction l as [|a l IH]; [done|]. simpl. intros [Ha Hl]%andb_prop.
  destruct (Q a); simpl; [rewrite Ha|]; by apply IH.
Qed.

(** ** Tokens in generation order *)

(** C1. When the stream of the chain produces a finite sequence of
    chunks and ends, the client of [POST /chat] receives a 200
    event-stream whose records are exactly the token records of the
    non-empty chunks, in generation order; each record is the text
    [data: ] followed by the JSON object with the single member [token]
    and a blank line; when the chunks are well-formed text, the only
    sequence of well-formed tokens with these records is the sequence
    of the non-empty chunks; the chunks Hel, lo, (empty), world give
    the three records of Hel, lo and world. *)
Theorem stream_emits_nonempty_chunks_in_order rag_chain fields q chunks l w :
  dict_lookup (py "query") fields = Some q →
  stream rag_chain q = map Yielded chunks →
  (∃ st',
     serve (chat_endpoint (post_json fields)) (mkState (Some rag_chain) l w) =
       (Return (ReceivedStream 200 (py "text/event-stream") (token_events chunks)), st')
     ∧ wire st' = w ++ token_events chunks)
  ∧ token_events chunks = map sse_token (List.filter str_truthy chunks)
  ∧ (∀ c, sse_token c =
          py "data: {" ++ dquote ++ py "token" ++ dquote ++ py ": " ++
          encode_basestring_ascii c ++ py "}" ++ nl ++ nl)
  ∧ (∀ toks,
       forallb well_formed chunks = true → forallb well_formed toks = true →
       map sse_token toks = token_events chunks →
       toks = List.filter str_truthy chunks)
  ∧ token_events [py "Hel"; py "lo"; []; py " world"] =
      [py "data: {" ++ dquote ++ py "token" ++ dquote ++ py ": " ++ dquote ++ py "Hel" ++ dquote ++ py "}" ++ nl ++ nl;
       py "data: {" ++ dquote ++ py "token" ++ dquote ++ py ": " ++ dquote ++ py "lo" ++ dquote ++ py "}" ++ nl ++ nl;
       py "data: {" ++ dquote ++ py "token" ++ dquote ++ py ": " ++ dquote ++ py " world" ++ dquote ++ py "}" ++ nl ++ nl].
Proof.
  intros Hq Hs. split; [|split; [|split; [|split]]].
  - eexists. split.
    + rewrite (serve_stream _ _ _ _ _ _ Hq (generate_stream_exhausted _ _ _ _ _ Hs)).
      simpl. by rewrite drop_app_length.
    + done.
  - apply token_events_filter.
  - apply sse_token_text.
  - intros toks Hc Ht Heq. rewrite token_events_filter in Heq.
    apply map_sse_token_inj; [done|by apply forallb_filter_weaken|done].
  - reflexivity.
Qed.

Lemma stream_emits_nonempty_chunks_in_order_witness :
  dict_lookup (py "query") [(py "query", JStr (py "hi"))] = Some (JStr (py "hi")) ∧
  stream (scripted (map Yielded [py "Hel"; py "lo"; []; py " world"])) (JStr (py "hi")) =
    map Yielded [py "Hel"; py "lo"; []; py " world"] ∧
  ∃ st',
    serve (chat_endpoint (post_json [(py "query", JStr (py "hi"))]))
      (mkState (Some (scripted (map Yielded [py "Hel"; py "lo"; []; py " world"]))) [] []) =
      (Return (ReceivedStream 200 (py "text/event-stream")
                 (token_events [py "Hel"; py "lo"; []; py " world"])), st')
    ∧ wire st' = [] ++ token_events [py "Hel"; py "lo"; []; py " world"].
Proof.
  split; [reflexivity|]. split; [reflexivity|].
  exact (proj1 (stream_emits_nonempty_chunks_in_order
                  (scripted (map Yielded [py "Hel"; py "lo"; []; py " world"]))
                  [(py "query", JStr (py "hi"))] (JStr (py "hi"))
                  [py "Hel"; py "lo"; []; py " world"] [] []
                  eq_refl eq_refl)).
Defined.

(** ** Errors raised while the stream is advanced *)

Lemma isinstance_true c e : exc_type e = c → isinstance c e = true.
Proof. intros. unfold isinstance. by apply bool_decide_eq_true_2. Qed.

Lemma isinstance_false c e : exc_type e ≠ c → isinstance c e = false.
Proof. intros. unfold isinstance. by apply bool_decide_eq_false_2. Qed.



(** C3. When the stream raises any exception other than the rate-limit
    exception after a prefix of chunks, the client receives the token
    records of the non-empty chunks of that prefix, then one error
    record whose payload is a JSON object with the single member
    [error] (the message, no code), and nothing more. *)
Theorem other_exception_mid_stream rag_chain fields q prefix e rest l w :
  dict_lookup (py "query") fields = Some q →
  stream rag_chain q = map Yielded prefix ++ Raised e :: rest →
  exc_type e ≠ RateLimitError →
  ∃ st' events,
    serve (chat_endpoint (post_json fields)) (mkState (Some rag_chain) l w) =
      (Return (ReceivedStream 200 (py "text/event-stream") events), st')
    ∧ events = token_events prefix ++ [sse_error (json_dumps (stream_error_payload e))]
    ∧ count_error_events events = 1%nat
    ∧ stream_error_payload e =
        JObj [(py "error", JStr (py "An error occurred during streaming: " ++ exc_str e))]
    ∧ sse_error (json_dumps (stream_error_payload e)) =
        py "event: error" ++ nl ++
        py "data: {" ++ dquote ++ py "error" ++ dquote ++ py ": " ++
        encode_basestring_ascii (py "An error occurred during streaming: " ++ exc_str e) ++
        py "}" ++ nl ++ nl.
Proof.
  intros Hq Hs He.
  pose proof (generate_stream_raised _ _ _ _ _ (l ++ [received_query q]) w Hs) as Hg.
  rewrite (isinstance_false _ _ He) in Hg.
  eexists _, _. split; [|split; [reflexivity|split; [|split; [reflexivity|]]]].
  - rewrite (serve_stream _ _ _ _ _ _ Hq Hg). simpl. by rewrite drop_app_length.
  - by rewrite count_error_events_tokens.
  - unfold sse_error, stream_error_payload, json_dumps. simpl.
    by rewrite <- !app_assoc.
Qed.

Lemma other_exception_mid_stream_witness :
  dict_lookup (py "query") [(py "query", JStr (py "hi"))] = Some (JStr (py "hi")) ∧
  stream (scripted (map Yielded [py "A"] ++
                    Raised (mkExc OtherException (py "connection reset")) ::
                    [Yielded (py "B")]))
         (JStr (py "hi")) =
    map Yielded [py "A"] ++
    Raised (mkExc OtherException (py "connection reset")) :: [Yielded (py "B")] ∧
  exc_type (mkExc OtherException (py "connection reset")) ≠ RateLimitError ∧
  ∃ st' events,
    serve (chat_endpoint (post_json [(py "query", JStr (py "hi"))]))
      (mkState
         (Some (scripted (map Yielded [py "A"] ++
                          Raised (mkExc OtherException (py "connection reset")) ::
                          [Yielded (py "B")])))
         [] []) =
      (Return (ReceivedStream 200 (py "text/event-stream") events), st')
    ∧ events =
        token_events [py "A"] ++
        [sse_error (json_dumps
                      (stream_error_payload (mkExc OtherException (py "connection reset"))))]
    ∧ count_error_events events = 1%nat.
Proof.
  assert (Hne : exc_type (mkExc OtherException (py "connection reset")) ≠ RateLimitError)
    by (simpl; discriminate).
  split; [reflexivity|]. split; [reflexivity|]. split; [exact Hne|].
  destruct (other_exception_mid_stream
              (scripted (map Yielded [py "A"] ++
                         Raised (mkExc OtherException (py "connection reset")) ::
                         [Yielded (py "B")]))
              [(py "query", JStr (py "hi"))] (JStr (py "hi"))
              [py "A"] (mkExc OtherException (py "connection reset"))
              [Yielded (py "B")] [] [] eq_refl eq_refl Hne)
    as (st' & events & Hserve & Hev & Hcount & _).
  exists st', events. auto.
Defined.

(** ** Any iterator *)

Lemma steps_split it :
  it = map Yielded (yielded_prefix it) ++
       match first_raised it with
       | None => []
       | Some e => Raised e :: drop (S (length (yielded_prefix it))) it
       end.
Proof.
  induction it as [|[c|e] it IH]; simpl; [done| |done].
  f_equal. exact IH.
Qed.

(** Whatever the stream of the chain does, the client of a request with
    a [query] member receives the 200 event stream of its records. *)
Lemma serve_query rag_chain fields q l w :
  dict_lookup (py "query") fields = Some q →
  ∃ st',
    serve (chat_endpoint (post_json fields)) (mkState (Some rag_chain) l w) =
    (Return (ReceivedStream 200 (py "text/event-stream")
               (stream_events (stream rag_chain q))), st').
Proof.
  intros Hq. unfold stream_events.
  pose proof (steps_split (stream rag_chain q)) as Hs.
  destruct (first_raised (stream rag_chain q)) as [e|].
  - pose proof (generate_stream_raised _ _ _ _ _ (l ++ [received_query q]) w Hs) as Hg.
    unfold error_event.
    destruct (isinstance RateLimitError e);
      eexists; rewrite (serve_stream _ _ _ _ _ _ Hq Hg); simpl;
      by rewrite drop_app_length.
  - rewrite app_nil_r in Hs.
    pose proof (generate_stream_exhausted _ _ _ (l ++ [received_query q]) w Hs) as Hg.
    eexists. rewrite (serve_stream _ _ _ _ _ _ Hq Hg). simpl.
    by rewrite drop_app_length, app_nil_r.
Qed.

(** ** The empty query *)

(** The claim that an empty query is rejected before the pipeline is
    invoked fails: the body with the empty string as [query] gets the
    200 event stream, with the chunk the chain produces for the empty
    query. *)
Lemma empty_query_reaches_pipeline :
  get_json (post_json [(py "query", JStr [])]) = Return (JObj [(py "query", JStr [])]) ∧
  fst (serve (chat_endpoint (post_json [(py "query", JStr [])]))
         (mkState (Some answers_empty_query) [] [])) =
    Return (ReceivedStream 200 (py "text/event-stream") [sse_token (py "pong")]).
Proof. split; reflexivity. Qed.

(** C5, amended. A request whose [query] is the empty string is not
    rejected: with the chain in place the endpoint answers with the 200
    event stream and the stream of the chain is called with the empty
    string; what the client receives are the records of that call. *)
Theorem empty_query_is_streamed rag_chain fields l w :
  dict_lookup (py "query") fields = Some (JStr []) →
  chat_endpoint (post_json fields) (mkState (Some rag_chain) l w) =
    (Return (Response_ (generate_stream (JStr [])) (py "text/event-stream")),
     mkState (Some rag_chain) (l ++ [received_query (JStr [])]) w)
  ∧ ∃ st',
      serve (chat_endpoint (post_json fields)) (mkState (Some rag_chain) l w) =
      (Return (ReceivedStream 200 (py "text/event-stream")
                 (stream_events (stream rag_chain (JStr [])))), st').
Proof.
  intros Hq. split.
  - exact (chat_endpoint_opens_stream _ _ _ _ _ Hq).
  - exact (serve_query _ _ _ _ _ Hq).
Qed.

Lemma empty_query_is_streamed_witness :
  dict_lookup (py "query") [(py "query", JStr [])] = Some (JStr []) ∧
  ∃ st',
    serve (chat_endpoint (post_json [(py "query", JStr [])]))
      (mkState (Some answers_empty_query) [] []) =
    (Return (ReceivedStream 200 (py "text/event-stream")
               (stream_events (stream answers_empty_query (JStr [])))), st').
Proof.
  split; [reflexivity|].
  exact (proj2 (empty_query_is_streamed answers_empty_query
                  [(py "query", JStr [])] [] [] eq_refl)).
Defined.

(** ** Exceptions before the streaming response exists *)

(** An exception leaves the [try] block before anything is logged. *)
Lemma chat_request_raise_state request st e st1 :
  chat_request request st = (Raise e, st1) → st1 = st.
Proof.
  unfold chat_request. run.
  destruct (get_json request) as [data|e0]; [|by intros [= _ <-]].
  destruct (negb (truthy data)); [discriminate|].
  destruct (py_in (py "query") data) as [[|]|e1]; simpl; [|discriminate|by intros [= _ <-]].
  destruct (py_getitem data (py "query")); [discriminate|by intros [= _ <-]].
Qed.

Lemma chat_endpoint_on_raise request rag_chain l w e st1 :
  chat_request request (mkState (Some rag_chain) l w) = (Raise e, st1) →
  chat_endpoint request (mkState (Some rag_chain) l w) =
  if isinstance RateLimitError e then
    (Return (jsonify pre_stream_rate_limit_body 429),
     mkState (Some rag_chain) (l ++ [pre_stream_rate_limit_record e]) w)
  else
    (Return (jsonify (internal_error_body e) 500),
     mkState (Some rag_chain) (l ++ [pre_stream_error_record e]) w).
Proof.
  intros Hr. pose proof (chat_request_raise_state _ _ _ _ Hr) as ->.
  unfold chat_endpoint. unfold mbind, M_bind, read_global. simpl.
  unfold try_except. rewrite Hr. simpl.
  destruct (isinstance RateLimitError e); reflexivity.
Qed.

(** A body that is a number: the membership test itself raises, and
    the generic handler answers. *)
Example number_body_is_500 :
  fst (serve (chat_endpoint {| get_json := Return (JNumber 5) |})
         (mkState (Some (scripted [])) [] [])) =
  Return (ReceivedJson 500
            (JObj [(py "error",
                    JStr (py "An internal error occurred: argument of type 'int' is not iterable"))])).
Proof. reflexivity. Qed.

(** A body that is a list containing the string query passes the test
    and fails at the subscription. *)
Example list_body_is_500 :
  fst (serve (chat_endpoint {| get_json := Return (JArr [JStr (py "query")]) |})
         (mkState (Some (scripted [])) [] [])) =
  Return (ReceivedJson 500
            (JObj [(py "error",
                    JStr (py "An internal error occurred: list indices must be integers or slices, not str"))])).
Proof. reflexivity. Qed.

(** C7. An exception that leaves the [try] block of [chat_endpoint]
    before the streaming response is built is answered with an ordinary
    JSON error response and no event stream: 429 with the rate-limit
    body when it is the rate-limit exception, 500 with a body that
    contains the message of the exception otherwise. *)
Theorem pre_stream_exception_is_http_error request rag_chain l w e st1 :
  chat_request request (mkState (Some rag_chain) l w) = (Raise e, st1) →
  ∃ code doc record,
    serve (chat_endpoint request) (mkState (Some rag_chain) l w) =
      (Return (ReceivedJson code doc), mkState (Some rag_chain) (l ++ [record]) w)
    ∧ (exc_type e = RateLimitError →
       code = 429%Z ∧
       doc = JObj [(py "error", JStr (py "API rate limit exceeded. Please try again later."))])
    ∧ (exc_type e ≠ RateLimitError →
       code = 500%Z ∧
       doc = JObj [(py "error", JStr (py "An internal error occurred: " ++ exc_str e))]).
Proof.
  intros Hr. unfold serve. unfold mbind at 1, M_bind at 1.
  rewrite (chat_endpoint_on_raise _ _ _ _ _ _ Hr).
  destruct (decide (exc_type e = RateLimitError)) as [He|He].
  - rewrite (isinstance_true _ _ He). eexists _, _, _.
    split; [reflexivity|]. split; [done|]. by intros [].
  - rewrite (isinstance_false _ _ He). eexists _, _, _.
    split; [reflexivity|]. split; [by intros ?|done].
Qed.

Lemma pre_stream_exception_is_http_error_witness :
  chat_request {| get_json := Raise (mkExc RateLimitError (py "Too Many Requests")) |}
    (mkState (Some (scripted [])) [] []) =
    (Raise (mkExc RateLimitError (py "Too Many Requests")),
     mkState (Some (scripted [])) [] []) ∧
  ∃ code doc record,
    serve (chat_endpoint
             {| get_json := Raise (mkExc RateLimitError (py "Too Many Requests")) |})
      (mkState (Some (scripted [])) [] []) =
      (Return (ReceivedJson code doc),
       mkState (Some (scripted [])) ([] ++ [record]) []).
Proof.
  split; [reflexivity|].
  destruct (pre_stream_exception_is_http_error
              {| get_json := Raise (mkExc RateLimitError (py "Too Many Requests")) |}
              (scripted []) [] []
              (mkExc RateLimitError (py "Too Many Requests"))
              (mkState (Some (scripted [])) [] []) eq_refl)
    as (code & doc & record & Hserve & _).
  exists code, doc, record. exact Hserve.
Defined.

(** C10. With the chain in place, a request whose body Flask cannot
    parse, so that [request.get_json()] raises an exception that is not
    the rate-limit exception, is answered by the generic handler: 500
    with the body [error: An internal error occurred: ...] carrying the
    message of the exception, and not the 400 of the validation. *)
Theorem unparsable_body_is_500 request rag_chain l w e :
  get_json request = Raise e →
  exc_type e ≠ RateLimitError →
  serve (chat_endpoint request) (mkState (Some rag_chain) l w) =
    (Return (ReceivedJson 500
               (JObj [(py "error", JStr (py "An internal error occurred: " ++ exc_str e))])),
     mkState (Some rag_chain) (l ++ [pre_stream_error_record e]) w)
  ∧ fst (serve (chat_endpoint request) (mkState (Some rag_chain) l w)) ≠
      Return (ReceivedJson 400 missing_query_body).
Proof.
  intros Hj He.
  assert (Hr : chat_request request (mkState (Some rag_chain) l w) =
               (Raise e, mkState (Some rag_chain) l w)).
  { unfold chat_request. unfold mbind at 1, M_bind at 1, eval at 1. by rewrite Hj. }
  assert (Hs : serve (chat_endpoint request) (mkState (Some rag_chain) l w) =
    (Return (ReceivedJson 500 (internal_error_body e)),
     mkState (Some rag_chain) (l ++ [pre_stream_error_record e]) w)).
  { unfold serve. unfold mbind at 1, M_bind at 1.
    rewrite (chat_endpoint_on_raise _ _ _ _ _ _ Hr), (isinstance_false _ _ He).
    reflexivity. }
  split; [exact Hs|]. rewrite Hs. simpl. discriminate.
Qed.

Lemma unparsable_body_is_500_witness :
  get_json {| get_json := Raise (mkExc OtherException (py "400 Bad Request: Failed to decode JSON object")) |} =
    Raise (mkExc OtherException (py "400 Bad Request: Failed to decode JSON object")) ∧
  exc_type (mkExc OtherException (py "400 Bad Request: Failed to decode JSON object")) ≠
    RateLimitError ∧
  serve (chat_endpoint
           {| get_json := Raise (mkExc OtherException (py "400 Bad Request: Failed to decode JSON object")) |})
    (mkState (Some (scripted [])) [] []) =
    (Return (ReceivedJson 500
               (JObj [(py "error",
                       JStr (py "An internal error occurred: " ++
                             py "400 Bad Request: Failed to decode JSON object"))])),
     mkState (Some (scripted []))
       ([] ++ [pre_stream_error_record
                 (mkExc OtherException (py "400 Bad Request: Failed to decode JSON object"))])
       []).
Proof.
  assert (Hne : exc_type (mkExc OtherException
                            (py "400 Bad Request: Failed to decode JSON object")) ≠
                RateLimitError) by (simpl; discriminate).
  split; [reflexivity|]. split; [exact Hne|].
  exact (proj1 (unparsable_body_is_500
                  {| get_json := Raise (mkExc OtherException
                                          (py "400 Bad Request: Failed to decode JSON object")) |}
                  (scripted []) [] []
                  (mkExc OtherException (py "400 Bad Request: Failed to decode JSON object"))
                  eq_refl Hne)).
Defined.

(** ** The context formatter *)

Section FormatDocs.
Context {V : Type} `{PyFormat V}.

Lemma str_join_cons sep p q rest :
  str_join sep (p :: q :: rest) = p ++ sep ++ str_join sep (q :: rest).
Proof. reflexivity. Qed.

Lemma str_join_app sep (l1 l2 : list pystr) :
  l1 ≠ [] → l2 ≠ [] →
  str_join sep (l1 ++ l2) = str_join sep l1 ++ sep ++ str_join sep l2.
Proof.
  intros H1 H2. induction l1 as [|p [|q l1] IH]; [done| |].
  - destruct l2; [done|]. reflexivity.
  - change ((p :: q :: l1) ++ l2) with (p :: q :: (l1 ++ l2)).
    rewrite !str_join_cons.
    change (q :: l1 ++ l2) with ((q :: l1) ++ l2).
    rewrite IH by done. by rewrite <- !app_assoc.
Qed.

Lemma format_docs_nonempty (docs : list (Document V)) :
  docs ≠ [] → format_docs docs = str_join (nl ++ nl) (map format_doc docs).
Proof. by destruct docs. Qed.

(** C6. The context formatter returns the sentinel text for the empty
    sequence; for a non-empty sequence it returns one record per
    document, [Source: ...], a newline, [Content: ...], with [Unknown]
    as source when the metadata has no [source] entry, the records
    separated by a blank line and in the order of the sequence (the
    text of a concatenation is the texts of the parts around one blank
    line); equal sequences give the same text. *)
Theorem format_docs_deterministic_text :
  format_docs ([] : list (Document V)) =
    py "No relevant context found in the documents."
  ∧ (∀ doc : Document V, format_docs [doc] = format_doc doc)
  ∧ (∀ (doc doc' : Document V) docs,
       format_docs (doc :: doc' :: docs) =
       format_doc doc ++ nl ++ nl ++ format_docs (doc' :: docs))
  ∧ (∀ docs1 docs2 : list (Document V),
       docs1 ≠ [] → docs2 ≠ [] →
       format_docs (docs1 ++ docs2) =
       format_docs docs1 ++ nl ++ nl ++ format_docs docs2)
  ∧ (∀ doc : Document V,
       metadata doc !! py "source" = None →
       format_doc doc =
       py "Source: Unknown" ++ nl ++ py "Content: " ++ page_content doc)
  ∧ (∀ (doc : Document V) v,
       metadata doc !! py "source" = Some v →
       format_doc doc =
       py "Source: " ++ py_format v ++ nl ++ py "Content: " ++ page_content doc)
  ∧ (∀ docs docs' : list (Document V),
       docs = docs' → format_docs docs = format_docs docs').
Proof.
  split; [reflexivity|]. split; [reflexivity|].
  split; [intros; simpl; by rewrite <- !app_assoc|].
  split.
  { intros docs1 docs2 H1 H2.
    rewrite !format_docs_nonempty by (try done; by destruct docs1).
    rewrite map_app, str_join_app;
      [by rewrite <- !app_assoc | by destruct docs1 | by destruct docs2]. }
  split; [intros doc Hs; unfold format_doc; by rewrite Hs|].
  split; [intros doc v Hs; unfold format_doc; by rewrite Hs|].
  by intros docs docs' ->.
Qed.
End FormatDocs.

Lemma format_docs_deterministic_text_witness :
  format_docs
    [mkDocument (V:=pystr) (py "streams tokens") {[ py "source" := py "guide.md" ]};
     mkDocument (V:=pystr) (py "no metadata") ∅] =
  py "Source: guide.md" ++ nl ++ py "Content: streams tokens" ++ nl ++ nl ++
  py "Source: Unknown" ++ nl ++ py "Content: no metadata".
Proof.
  destruct (@format_docs_deterministic_text pystr _) as (_ & _ & Hcons & _).
  rewrite Hcons. reflexivity.
Defined.

(** ** Construction of the chain *)

Section ConstructionProperties.
Context {V : Type} `{PyFormat V}.
Context {Embeddings VectorStore ChatModel Retriever Prompt : Type}.
Variable env : Config.
Variable clients : @Clients V Embeddings VectorStore ChatModel Retriever Prompt.

(** An exception of the first constructor is the exception of the whole
    sequence; likewise for the last step. *)
Lemma construct_embeddings_raise e :
  AzureOpenAIEmbeddings clients
    (AZURE_OPENAI_EMBEDDING_DEPLOYMENT_NAME env) (AZURE_OPENAI_ENDPOINT_EMBEDDINGS env)
    (AZURE_OPENAI_API_KEY_EMBEDDINGS env) (AZURE_OPENAI_API_VERSION_EMBEDDINGS env) =
    Raise e →
  construct env clients = Raise e.
Proof. intros He. unfold construct. by rewrite He. Qed.

(** The branches of [create_rag_chain] that end with an ERROR record and
    no chain. *)
Ltac closes_with_error :=
  run; eexists None, _; rewrite <- app_assoc;
  split; [reflexivity|];
  split; [done|]; split; [done|]; split; [done|];
  split; [try done; by intros ? [=]|]; intros _; by eexists.

(** C8. [create_rag_chain] always returns and never raises: it logs at
    least one record and changes nothing else; it returns no chain when
    a configuration group is incomplete and when a constructor of the
    [try] block raises, in both cases after an ERROR record, and it
    returns the chain when the configuration is complete and the
    constructors succeed. *)
Theorem create_rag_chain_never_raises st :
  ∃ r records,
    create_rag_chain env clients st =
      (Return r,
       mkState (rag_chain_instance_global st) (log st ++ records) (wire st))
    ∧ records ≠ []
    ∧ (py_all (embeddings_group env) = false ∨ py_all (chat_group env) = false ∨
       py_all (search_group env) = false → r = None)
    ∧ (∀ e, construct env clients = Raise e → r = None)
    ∧ (∀ rag_chain,
         config_complete env = true → construct env clients = Return rag_chain →
         r = Some rag_chain)
    ∧ (r = None → ∃ m, last records = Some {| level := ERROR; message := m |}).
Proof.
  unfold create_rag_chain, config_complete. destruct st as [g l w].
  destruct (py_all (embeddings_group env)); [|closes_with_error].
  destruct (py_all (chat_group env)); [|closes_with_error].
  destruct (py_all (search_group env)); [|closes_with_error].
  destruct (construct env clients) as [rag_chain|e]; [|closes_with_error].
  run. eexists _, _. rewrite <- app_assoc. split; [reflexivity|].
  split; [done|]. split; [by intros [?|[?|?]]|]. split; [done|].
  split; [by intros ? _ [= ->]|done].
Qed.
End ConstructionProperties.

Lemma create_rag_chain_never_raises_witness :
  ∃ r records,
    create_rag_chain demo_env stub_clients initial_state =
      (Return r, mkState None ([] ++ records) [])
    ∧ r = Some (scripted []).
Proof.
  destruct (create_rag_chain_never_raises demo_env stub_clients initial_state)
    as (r & records & Hrun & _ & _ & _ & Hok & _).
  exists r, records. split; [exact Hrun|]. apply Hok; reflexivity.
Defined.

(** ** The health endpoint *)

(** The claim that [health_check] answers with the two-member body and
    has no side effect fails without a chain: the body has a third
    member, [message], and an ERROR record is logged. *)
Lemma health_check_message_and_log :
  fst (health_check initial_state) = Return (jsonify unhealthy_body 503) ∧
  dict_lookup (py "message")
    (match unhealthy_body with JObj fields => fields | _ => [] end) =
    Some (JStr (py "Flask application is running, but the RAG chain failed to initialize. Check server logs for details.")) ∧
  unhealthy_body ≠
    JObj [(py "status", JStr (py "error")); (py "rag_chain_initialized", JBool false)] ∧
  log (snd (health_check initial_state)) = [health_failed_record] ∧
  health_check initial_state ≠
    (Return (jsonify (JObj [(py "status", JStr (py "error"));
                            (py "rag_chain_initialized", JBool false)]) 503),
     initial_state).
Proof.
  split; [reflexivity|]. split; [reflexivity|]. split; [discriminate|].
  split; [reflexivity|]. discriminate.
Qed.

(** C9, amended. [health_check] reads the global and leaves it and the
    wire as they are.  With a chain it answers 200 with the members
    status ok, message and rag_chain_initialized true, and logs
    nothing; without one it answers 503 with status error, message and
    rag_chain_initialized false, and logs one ERROR record.  So the
    answer is 200 exactly when the global is not None and 503 exactly
    when it is. *)
Theorem health_check_reports_singleton st :
  ∃ code doc records,
    health_check st =
      (Return (jsonify doc code),
       mkState (rag_chain_instance_global st) (log st ++ records) (wire st))
    ∧ (is_Some (rag_chain_instance_global st) →
       code = 200%Z ∧ doc = healthy_body ∧ records = [])
    ∧ (rag_chain_instance_global st = None →
       code = 503%Z ∧ doc = unhealthy_body ∧ records = [health_failed_record])
    ∧ (code = 200%Z ↔ is_Some (rag_chain_instance_global st))
    ∧ (code = 503%Z ↔ rag_chain_instance_global st = None)
    ∧ (dict_lookup (py "rag_chain_initialized")
         (match doc with JObj fields => fields | _ => [] end) =
       Some (JBool (bool_decide (is_Some (rag_chain_instance_global st)))))
    ∧ (dict_lookup (py "status")
         (match doc with JObj fields => fields | _ => [] end) =
       Some (JStr (if bool_decide (is_Some (rag_chain_instance_global st))
                   then py "ok" else py "error"))).
Proof.
  destruct st as [[rag_chain|] l w]; unfold health_check; run.
  - exists 200%Z, healthy_body, []. rewrite app_nil_r.
    split; [reflexivity|]. split; [done|]. split; [done|].
    split; [by split; eauto|]. split; [by split|]. split; reflexivity.
  - exists 503%Z, unhealthy_body, [health_failed_record].
    split; [reflexivity|]. split; [by intros [? ?]|]. split; [done|].
    split; [split; [done|by intros [? ?]]|]. split; [by split|]. split; reflexivity.
Qed.

Lemma health_check_reports_singleton_witness :
  ∃ code doc records,
    health_check initial_state =
      (Return (jsonify doc code), mkState None ([] ++ records) [])
    ∧ code = 503%Z ∧ doc = unhealthy_body ∧ records = [health_failed_record].
Proof.
  destruct (health_check_reports_singleton initial_state)
    as (code & doc & records & Hrun & _ & Hnone & _).
  exists code, doc, records. split; [exact Hrun|]. apply Hnone. reflexivity.
Defined.


(** * Further properties of the handlers *)

(** ** What the [try] block of [chat_endpoint] can do *)

(** The block either raises before it logs anything, or logs one record
    and returns the 400 response or the streaming response. *)
Lemma chat_request_outcome request g l w :
  (∃ e, chat_request request (mkState g l w) = (Raise e, mkState g l w) ∧
        (get_json request = Raise e ∨
         (exc_type e = TypeError ∧
          ∃ data, get_json request = Return data ∧
                  match data with JObj _ => False | _ => True end)))
  ∨ (∃ record,
       chat_request request (mkState g l w) =
         (Return (jsonify missing_query_body 400), mkState g (l ++ [record]) w))
  ∨ (∃ q record,
       chat_request request (mkState g l w) =
         (Return (Response_ (generate_stream q) (py "text/event-stream")),
          mkState g (l ++ [record]) w)).
Proof.
  unfold chat_request.
  destruct (get_json request) as [data|e]; run;
    [|left; eexists; split; [reflexivity|by left]].
  destruct (truthy data) eqn:Ht; simpl; [|right; left; by eexists].
  destruct data as [|b|n|s|items|fields]; simpl.
  - discriminate.
  - left. eexists. split; [reflexivity|]. right. split; [done|]. by eexists.
  - left. eexists. split; [reflexivity|]. right. split; [done|]. by eexists.
  - destruct (str_contains s (py "query")); simpl.
    + left. eexists. split; [reflexivity|]. right. split; [done|]. by eexists.
    + right; left. by eexists.
  - destruct (existsb _ items); simpl.
    + left. eexists. split; [reflexivity|]. right. split; [done|]. by eexists.
    + right; left. by eexists.
  - unfold py_getitem.
    destruct (dict_lookup (py "query") fields) as [q|] eqn:Hq.
    + rewrite bool_decide_eq_true_2 by eauto. simpl. right; right. by eexists _, _.
    + rewrite bool_decide_eq_false_2 by (by intros [? ?]). simpl.
      right; left. by eexists.
Qed.

Lemma chat_endpoint_on_return request rag_chain l w response st1 :
  chat_request request (mkState (Some rag_chain) l w) = (Return response, st1) →
  chat_endpoint request (mkState (Some rag_chain) l w) = (Return response, st1).
Proof.
  intros Hr. unfold chat_endpoint. unfold mbind, M_bind, read_global. simpl.
  unfold try_except. by rewrite Hr.
Qed.

Lemma get_json_raise_chat_request request st e :
  get_json request = Raise e → chat_request request st = (Raise e, st).
Proof.
  intros Hj. unfold chat_request. unfold mbind at 1, M_bind at 1, eval at 1.
  by rewrite Hj.
Qed.

(** The five ways [chat_endpoint] ends. *)
Lemma chat_endpoint_outcome request g l w :
  ∃ response record,
    chat_endpoint request (mkState g l w) =
      (Return response, mkState g (l ++ [record]) w)
    ∧ ((g = None ∧ response = jsonify not_initialized_body 500)
       ∨ (is_Some g ∧ response = jsonify missing_query_body 400)
       ∨ (is_Some g ∧
          ∃ q, response = Response_ (generate_stream q) (py "text/event-stream"))
       ∨ (is_Some g ∧
          ∃ e, get_json request = Raise e ∧ exc_type e = RateLimitError ∧
               response = jsonify pre_stream_rate_limit_body 429)
       ∨ (is_Some g ∧
          ∃ e, exc_type e ≠ RateLimitError ∧
               response = jsonify (internal_error_body e) 500)).
Proof.
  destruct g as [rag_chain|].
  2:{ eexists _, _. split; [reflexivity|]. by left. }
  destruct (chat_request_outcome request (Some rag_chain) l w)
    as [(e & Hr & Hsrc)|[(record & Hr)|(q & record & Hr)]].
  - rewrite (chat_endpoint_on_raise _ _ _ _ _ _ Hr).
    destruct (decide (exc_type e = RateLimitError)) as [He|He].
    + rewrite (isinstance_true _ _ He). eexists _, _. split; [reflexivity|].
      do 3 right. left. split; [by eexists|]. exists e.
      destruct Hsrc as [Hj|[Ht _]]; [done|congruence].
    + rewrite (isinstance_false _ _ He). eexists _, _. split; [reflexivity|].
      do 4 right. split; [by eexists|]. by exists e.
  - rewrite (chat_endpoint_on_return _ _ _ _ _ _ Hr). eexists _, _.
    split; [reflexivity|]. right; left. split; [by eexists|done].
  - rewrite (chat_endpoint_on_return _ _ _ _ _ _ Hr). eexists _, _.
    split; [reflexivity|]. do 2 right. left. split; [by eexists|]. by exists q.
Qed.

(** ** Requests without the key *)





(** X1. [chat_endpoint] never lets an exception escape: whatever the
    request and the state, it returns a response, logs exactly one
    record, and leaves the global chain and the wire untouched. *)
Theorem chat_endpoint_never_raises request st :
  ∃ response record,
    chat_endpoint request st =
      (Return response,
       mkState (rag_chain_instance_global st) (log st ++ [record]) (wire st)).
Proof.
  destruct st as [g l w].
  destruct (chat_endpoint_outcome request g l w) as (response & record & Hrun & _).
  by exists response, record.
Qed.

(** X2. A response of [chat_endpoint] is either the 200 event stream
    over [generate_stream], or a JSON document with the single member
    [error] and status 400, 429 or 500; no other status occurs, and the
    status is 200 exactly for the stream. *)
Theorem chat_endpoint_response_shapes request st response st' :
  chat_endpoint request st = (Return response, st') →
  (status response = 200%Z ∧ mimetype response = py "text/event-stream" ∧
   ∃ q, body response = StreamBody (generate_stream q))
  ∨ ((status response = 400%Z ∨ status response = 429%Z ∨ status response = 500%Z) ∧
     is_error_document response).
Proof.
  destruct st as [g l w]. intros Hrun.
  destruct (chat_endpoint_outcome request g l w)
    as (response' & record & Hrun' & Hcases).
  rewrite Hrun in Hrun'. injection Hrun' as -> _.
  destruct Hcases as [[_ ->]|[[_ ->]|[[_ [q ->]]|[[_ (e & _ & _ & ->)]|[_ (e & _ & ->)]]]]].
  - right. split; [by do 2 right|]. split; [done|]. by eexists.
  - right. split; [by left|]. split; [done|]. by eexists.
  - left. split; [done|]. split; [done|]. by exists q.
  - right. split; [by right; left|]. split; [done|]. by eexists.
  - right. split; [by do 2 right|]. split; [done|]. by eexists.
Qed.

Lemma chat_endpoint_response_shapes_witness :
  chat_endpoint (post_json [(py "query", JStr (py "hi"))])
    (mkState (Some (scripted [])) [] []) =
    (Return (Response_ (generate_stream (JStr (py "hi"))) (py "text/event-stream")),
     mkState (Some (scripted [])) [received_query (JStr (py "hi"))] []) ∧
  ((status (Response_ (generate_stream (JStr (py "hi"))) (py "text/event-stream")) = 200%Z ∧
    mimetype (Response_ (generate_stream (JStr (py "hi"))) (py "text/event-stream")) =
      py "text/event-stream" ∧
    ∃ q, body (Response_ (generate_stream (JStr (py "hi"))) (py "text/event-stream")) =
         StreamBody (generate_stream q))
   ∨ ((status (Response_ (generate_stream (JStr (py "hi"))) (py "text/event-stream")) = 400%Z ∨
       status (Response_ (generate_stream (JStr (py "hi"))) (py "text/event-stream")) = 429%Z ∨
       status (Response_ (generate_stream (JStr (py "hi"))) (py "text/event-stream")) = 500%Z) ∧
      is_error_document
        (Response_ (generate_stream (JStr (py "hi"))) (py "text/event-stream")))).
Proof.
  split; [reflexivity|].
  exact (chat_endpoint_response_shapes
           (post_json [(py "query", JStr (py "hi"))])
           (mkState (Some (scripted [])) [] []) _ _ eq_refl).
Defined.

(** X3. Without a chain the request is not looked at: any two requests,
    also ones whose body cannot be parsed, get the same 500 response,
    and [request.get_json()] is never evaluated. *)
Theorem chat_endpoint_without_chain_ignores_request request request' st :
  rag_chain_instance_global st = None →
  chat_endpoint request st = chat_endpoint request' st
  ∧ fst (chat_endpoint request st) = Return (jsonify not_initialized_body 500).
Proof. destruct st as [[c|] l w]; [discriminate|]. intros _. by split. Qed.

Lemma chat_endpoint_without_chain_ignores_request_witness :
  rag_chain_instance_global initial_state = None ∧
  chat_endpoint {| get_json := Raise (mkExc OtherException (py "400 Bad Request")) |}
    initial_state =
  chat_endpoint (post_json [(py "query", JStr (py "hi"))]) initial_state.
Proof.
  split; [reflexivity|].
  exact (proj1 (chat_endpoint_without_chain_ignores_request
                  {| get_json := Raise (mkExc OtherException (py "400 Bad Request")) |}
                  (post_json [(py "query", JStr (py "hi"))])
                  initial_state eq_refl)).
Defined.

(** X4. Every body whose truth value is false, the empty dictionary,
    the empty list, the empty string, zero, false and None alike, is
    answered 400 with the missing-query body when the chain exists. *)
Theorem falsy_body_is_400 request data rag_chain l w :
  get_json request = Return data →
  truthy data = false →
  fst (chat_endpoint request (mkState (Some rag_chain) l w)) =
    Return (jsonify missing_query_body 400).
Proof.
  intros Hj Ht.
  assert (Hr : fst (chat_request request (mkState (Some rag_chain) l w)) =
               Return (jsonify missing_query_body 400)).
  { unfold chat_request. run. rewrite Hj, Ht. reflexivity. }
  destruct (chat_request request (mkState (Some rag_chain) l w)) as [r st1] eqn:Hc.
  simpl in Hr. subst r. by rewrite (chat_endpoint_on_return _ _ _ _ _ _ Hc).
Qed.

Lemma falsy_body_is_400_witness :
  get_json {| get_json := Return (JArr []) |} = Return (JArr []) ∧
  truthy (JArr []) = false ∧
  fst (chat_endpoint {| get_json := Return (JArr []) |}
         (mkState (Some (scripted [])) [] [])) =
    Return (jsonify missing_query_body 400).
Proof.
  split; [reflexivity|]. split; [reflexivity|].
  exact (falsy_body_is_400 {| get_json := Return (JArr []) |} (JArr [])
           (scripted []) [] [] eq_refl eq_refl).
Defined.

(** X5. An exception leaves the [try] block of [chat_endpoint] only in
    two ways: [request.get_json()] raised it, or the parsed body is not
    a dictionary and the membership test or the subscription raised
    [TypeError].  The subscription of a dictionary never raises
    [KeyError], because the membership test comes first. *)
Theorem pre_stream_exception_sources request st e st1 :
  chat_request request st = (Raise e, st1) →
  get_json request = Raise e
  ∨ (exc_type e = TypeError ∧
     ∃ data, get_json request = Return data ∧
             match data with JObj _ => False | _ => True end).
Proof.
  destruct st as [g l w]. intros Hr.
  destruct (chat_request_outcome request g l w)
    as [(e' & Hr' & Hsrc)|[(record & Hr')|(q & record & Hr')]];
    rewrite Hr in Hr'; [|discriminate|discriminate].
  injection Hr' as -> _. exact Hsrc.
Qed.

Lemma pre_stream_exception_sources_witness :
  chat_request {| get_json := Return (JBool true) |} initial_state =
    (Raise (mkExc TypeError (py "argument of type 'bool' is not iterable")),
     initial_state) ∧
  (get_json {| get_json := Return (JBool true) |} =
     Raise (mkExc TypeError (py "argument of type 'bool' is not iterable"))
   ∨ (exc_type (mkExc TypeError (py "argument of type 'bool' is not iterable")) = TypeError ∧
      ∃ data, get_json {| get_json := Return (JBool true) |} = Return data ∧
              match data with JObj _ => False | _ => True end)).
Proof.
  split; [reflexivity|].
  exact (pre_stream_exception_sources {| get_json := Return (JBool true) |}
           initial_state _ _ eq_refl).
Defined.

(** X6. The 429 response of [chat_endpoint] is given exactly when the
    chain exists and [request.get_json()] itself raises the rate-limit
    exception; nothing else in the handler can lead to it. *)
Theorem pre_stream_429_only_from_get_json request st response st' :
  chat_endpoint request st = (Return response, st') →
  status response = 429%Z ↔
  is_Some (rag_chain_instance_global st) ∧
  ∃ e, get_json request = Raise e ∧ exc_type e = RateLimitError.
Proof.
  destruct st as [g l w]. intros Hrun. split.
  - intros Hs.
    destruct (chat_endpoint_outcome request g l w)
      as (response' & record & Hrun' & Hcases).
    rewrite Hrun in Hrun'. injection Hrun' as -> _.
    destruct Hcases
      as [[_ ->]|[[_ ->]|[[_ [q ->]]|[[Hg (e & Hj & He & ->)]|[_ (e & _ & ->)]]]]];
      try discriminate.
    split; [done|]. by exists e.
  - intros [[rag_chain Hg] (e & Hj & He)]. simpl in Hg. subst g.
    rewrite (chat_endpoint_on_raise _ _ _ _ _ _ (get_json_raise_chat_request _ _ _ Hj)),
      (isinstance_true _ _ He) in Hrun.
    by injection Hrun as <- _.
Qed.

Lemma pre_stream_429_only_from_get_json_witness :
  chat_endpoint {| get_json := Raise (mkExc RateLimitError (py "Too Many Requests")) |}
    (mkState (Some (scripted [])) [] []) =
    (Return (jsonify pre_stream_rate_limit_body 429),
     mkState (Some (scripted []))
       [pre_stream_rate_limit_record (mkExc RateLimitError (py "Too Many Requests"))] []) ∧
  (status (jsonify pre_stream_rate_limit_body 429) = 429%Z ↔
   is_Some (rag_chain_instance_global (mkState (Some (scripted [])) [] [])) ∧
   ∃ e, get_json {| get_json := Raise (mkExc RateLimitError (py "Too Many Requests")) |} =
          Raise e ∧ exc_type e = RateLimitError).
Proof.
  split; [reflexivity|].
  exact (pre_stream_429_only_from_get_json
           {| get_json := Raise (mkExc RateLimitError (py "Too Many Requests")) |}
           (mkState (Some (scripted [])) [] []) _ _ eq_refl).
Defined.

(** X7. A body that is a JSON string is tested with the substring
    operator: a non-empty string that contains the text query passes
    the test and fails at the subscription, which gives the 500 of the
    generic handler; every other string gives the 400. *)
Theorem string_body_substring_test request s rag_chain l w :
  get_json request = Return (JStr s) →
  fst (chat_endpoint request (mkState (Some rag_chain) l w)) =
    if str_contains s (py "query") then
      Return (jsonify
                (internal_error_body
                   (mkExc TypeError (py "string indices must be integers, not 'str'")))
                500)
    else Return (jsonify missing_query_body 400).
Proof.
  intros Hj.
  destruct (truthy (JStr s)) eqn:Ht.
  2:{ rewrite (falsy_body_is_400 _ _ _ _ _ Hj Ht). by destruct s. }
  destruct (str_contains s (py "query")) eqn:Hc.
  - assert (Hr : chat_request request (mkState (Some rag_chain) l w) =
                 (Raise (mkExc TypeError (py "string indices must be integers, not 'str'")),
                  mkState (Some rag_chain) l w)).
    { unfold chat_request. run. rewrite Hj, Ht. unfold py_in. rewrite Hc.
      reflexivity. }
    rewrite (chat_endpoint_on_raise _ _ _ _ _ _ Hr). reflexivity.
  - assert (Hr : fst (chat_request request (mkState (Some rag_chain) l w)) =
                 Return (jsonify missing_query_body 400)).
    { unfold chat_request. run. rewrite Hj, Ht. unfold py_in. rewrite Hc.
      reflexivity. }
    destruct (chat_request request (mkState (Some rag_chain) l w)) as [r st1] eqn:Hq.
    simpl in Hr. subst r. by rewrite (chat_endpoint_on_return _ _ _ _ _ _ Hq).
Qed.

Lemma string_body_substring_test_witness :
  get_json {| get_json := Return (JStr (py "my query")) |} = Return (JStr (py "my query")) ∧
  fst (chat_endpoint {| get_json := Return (JStr (py "my query")) |}
         (mkState (Some (scripted [])) [] [])) =
    Return (jsonify
              (internal_error_body
                 (mkExc TypeError (py "string indices must be integers, not 'str'")))
              500).
Proof.
  split; [reflexivity|].
  exact (string_body_substring_test {| get_json := Return (JStr (py "my query")) |}
           (py "my query") (scripted []) [] [] eq_refl).
Defined.

(** ** The generator in any state *)

Lemma generate_stream_run rag_chain q l w :
  generate_stream q (mkState (Some rag_chain) l w) =
  (Return tt,
   mkState (Some rag_chain)
     (l ++ match first_raised (stream rag_chain q) with
           | None => []
           | Some e => [stream_failure_record e]
           end ++ [stream_ended q])
     (w ++ stream_events (stream rag_chain q))).
Proof.
  pose proof (steps_split (stream rag_chain q)) as Hs. unfold stream_events.
  destruct (first_raised (stream rag_chain q)) as [e|].
  - rewrite (generate_stream_raised _ _ _ _ _ l w Hs).
    unfold error_event, stream_failure_record.
    by destruct (isinstance RateLimitError e).
  - rewrite app_nil_r in Hs. rewrite (generate_stream_exhausted _ _ _ l w Hs).
    by rewrite !app_nil_r.
Qed.

Lemma generate_stream_without_chain q l w :
  generate_stream q (mkState None l w) =
  (Return tt,
   mkState None
     (l ++ [stream_failure_record no_stream_attribute] ++ [stream_ended q])
     (w ++ [error_event no_stream_attribute])).
Proof. unfold generate_stream. run. by rewrite <- !app_assoc. Qed.

Lemma count_error_events_stream it :
  count_error_events (stream_events it) =
  match first_raised it with None => 0%nat | Some _ => 1%nat end.
Proof.
  unfold stream_events. rewrite count_error_events_tokens.
  by destruct (first_raised it).
Qed.

(** X8. [generate_stream] never raises, whatever the chain does and
    even when the global is None at the time it is advanced: it only
    appends to the wire, with at most one error record, leaves the
    global as it is, logs at most one failure record and always ends
    by logging that the stream ended. *)
Theorem generate_stream_always_completes q st :
  ∃ events records,
    generate_stream q st =
      (Return tt,
       mkState (rag_chain_instance_global st)
         (log st ++ records ++ [stream_ended q])
         (wire st ++ events))
    ∧ (count_error_events events ≤ 1)%nat
    ∧ (length records ≤ 1)%nat.
Proof.
  destruct st as [[rag_chain|] l w].
  - eexists _, _. split; [apply generate_stream_run|]. simpl.
    rewrite count_error_events_stream.
    destruct (first_raised (stream rag_chain q)); simpl; lia.
  - eexists _, _. split; [apply generate_stream_without_chain|].
    split; [|simpl; lia]. unfold count_error_events. simpl. lia.
Qed.

(** X9. In the stream of any request the error record, if there is
    one, is the last record: there is exactly one when the chain raised
    and none when it did not, and no record follows an error record. *)
Theorem error_event_is_last rag_chain fields q l w :
  dict_lookup (py "query") fields = Some q →
  ∃ events st',
    serve (chat_endpoint (post_json fields)) (mkState (Some rag_chain) l w) =
      (Return (ReceivedStream 200 (py "text/event-stream") events), st')
    ∧ count_error_events events =
        match first_raised (stream rag_chain q) with None => 0%nat | Some _ => 1%nat end
    ∧ ∀ before record after,
        events = before ++ record :: after →
        is_error_event record = true → after = [].
Proof.
  intros Hq. destruct (serve_query rag_chain fields q l w Hq) as [st' Hrun].
  eexists _, st'. split; [exact Hrun|]. split; [apply count_error_events_stream|].
  intros before record after Hev Herr.
  assert (Hc : count_error_events (stream_events (stream rag_chain q)) =
               (count_error_events before + 1 + count_error_events after)%nat).
  { rewrite Hev. unfold count_error_events.
    rewrite List.filter_app. simpl. rewrite Herr. simpl.
    rewrite length_app. simpl. lia. }
  unfold stream_events in Hev.
  destruct (first_raised (stream rag_chain q)) as [e|] eqn:Hf.
  - destruct after as [|a after] using rev_ind; [done|].
    clear IHafter.
    change (before ++ record :: after ++ [a])
      with (before ++ (record :: after) ++ [a]) in Hev.
    rewrite app_assoc in Hev. apply app_inj_tail in Hev as [Hpre Ha].
    assert (Hz : count_error_events (before ++ record :: after) = 0%nat).
    { rewrite <- Hpre, <- (app_nil_r (token_events _)).
      by rewrite count_error_events_tokens. }
    unfold count_error_events in Hz. rewrite List.filter_app in Hz.
    simpl in Hz. rewrite Herr in Hz. rewrite length_app in Hz. simpl in Hz. lia.
  - rewrite count_error_events_stream, Hf in Hc. lia.
Qed.

Lemma error_event_is_last_witness :
  dict_lookup (py "query") [(py "query", JStr (py "hi"))] = Some (JStr (py "hi")) ∧
  ∃ events st',
    serve (chat_endpoint (post_json [(py "query", JStr (py "hi"))]))
      (mkState
         (Some (scripted [Yielded (py "A");
                          Raised (mkExc OtherException (py "connection reset"));
                          Yielded (py "B")]))
         [] []) =
      (Return (ReceivedStream 200 (py "text/event-stream") events), st')
    ∧ count_error_events events = 1%nat.
Proof.
  split; [reflexivity|].
  destruct (error_event_is_last
              (scripted [Yielded (py "A");
                         Raised (mkExc OtherException (py "connection reset"));
                         Yielded (py "B")])
              [(py "query", JStr (py "hi"))] (JStr (py "hi")) [] [] eq_refl)
    as (events & st' & Hrun & Hcount & _).
  exists events, st'. split; [exact Hrun|exact Hcount].
Defined.

Lemma token_events_app chunks chunks' :
  token_events (chunks ++ chunks') = token_events chunks ++ token_events chunks'.
Proof. unfold token_events. by rewrite filter_app, fmap_app. Qed.

Lemma yielded_prefix_app chunks rest :
  yielded_prefix (map Yielded chunks ++ rest) = chunks ++ yielded_prefix rest.
Proof. induction chunks as [|c cs IH]; [done|]. simpl. by rewrite IH. Qed.

Lemma first_raised_app chunks rest :
  first_raised (map Yielded chunks ++ rest) = first_raised rest.
Proof. induction chunks as [|c cs IH]; [done|]. exact IH. Qed.

Lemma stream_events_yielded chunks rest :
  stream_events (map Yielded chunks ++ rest) =
  token_events chunks ++ stream_events rest.
Proof.
  unfold stream_events.
  by rewrite yielded_prefix_app, first_raised_app, token_events_app, <- app_assoc.
Qed.

(** X10. Streaming is incremental: when the stream of one chain is a
    sequence of chunks followed by the stream of another, the client
    receives the token records of those chunks followed by exactly what
    it would have received from the other chain, and never more token
    records than there are chunks. *)
Theorem streaming_is_incremental rag_chain rag_chain' fields q chunks l w :
  dict_lookup (py "query") fields = Some q →
  stream rag_chain q = map Yielded chunks ++ stream rag_chain' q →
  ∃ events events' st st',
    serve (chat_endpoint (post_json fields)) (mkState (Some rag_chain) l w) =
      (Return (ReceivedStream 200 (py "text/event-stream") events), st)
    ∧ serve (chat_endpoint (post_json fields)) (mkState (Some rag_chain') l w) =
      (Return (ReceivedStream 200 (py "text/event-stream") events'), st')
    ∧ events = token_events chunks ++ events'
    ∧ (length (token_events chunks) ≤ length chunks)%nat.
Proof.
  intros Hq Hs.
  destruct (serve_query rag_chain fields q l w Hq) as [st Hrun].
  destruct (serve_query rag_chain' fields q l w Hq) as [st' Hrun'].
  eexists _, _, st, st'. split; [exact Hrun|]. split; [exact Hrun'|].
  split; [by rewrite Hs, stream_events_yielded|].
  unfold token_events. rewrite length_fmap. apply length_filter.
Qed.

Lemma streaming_is_incremental_witness :
  dict_lookup (py "query") [(py "query", JStr (py "hi"))] = Some (JStr (py "hi")) ∧
  stream (scripted [Yielded (py "A"); Yielded []; Yielded (py "B")]) (JStr (py "hi")) =
    map Yielded [py "A"; []] ++ stream (scripted [Yielded (py "B")]) (JStr (py "hi")) ∧
  ∃ events events' st st',
    serve (chat_endpoint (post_json [(py "query", JStr (py "hi"))]))
      (mkState (Some (scripted [Yielded (py "A"); Yielded []; Yielded (py "B")])) [] []) =
      (Return (ReceivedStream 200 (py "text/event-stream") events), st)
    ∧ serve (chat_endpoint (post_json [(py "query", JStr (py "hi"))]))
        (mkState (Some (scripted [Yielded (py "B")])) [] []) =
      (Return (ReceivedStream 200 (py "text/event-stream") events'), st')
    ∧ events = token_events [py "A"; []] ++ events'.
Proof.
  split; [reflexivity|]. split; [reflexivity|].
  destruct (streaming_is_incremental
              (scripted [Yielded (py "A"); Yielded []; Yielded (py "B")])
              (scripted [Yielded (py "B")])
              [(py "query", JStr (py "hi"))] (JStr (py "hi")) [py "A"; []] [] []
              eq_refl eq_refl)
    as (events & events' & st & st' & Hrun & Hrun' & Hev & _).
  exists events, events', st, st'. auto.
Defined.

(** ** Framing of the records *)

Lemma hex_digit_printable d : d < 16 → printable_ascii (hex_digit d) = true.
Proof.
  intros Hd. unfold hex_digit, printable_ascii.
  destruct (N.ltb_spec d 10); apply andb_true_intro; split; apply N.leb_le; lia.
Qed.

Lemma u_escape_printable n : forallb printable_ascii (u_escape n) = true.
Proof.
  unfold u_escape, hex4. cbn [app forallb].
  rewrite !hex_digit_printable by (apply N.mod_lt; lia). reflexivity.
Qed.

Lemma escape_char_printable c : forallb printable_ascii (escape_char c) = true.
Proof.
  unfold escape_char.
  destruct (c =? 92); [reflexivity|]. destruct (c =? 34); [reflexivity|].
  destruct ((32 <=? c) && (c <=? 126)) eqn:Hp.
  { cbn [forallb]. unfold printable_ascii. by rewrite Hp. }
  destruct (c =? 8); [reflexivity|]. destruct (c =? 12); [reflexivity|].
  destruct (c =? 10); [reflexivity|]. destruct (c =? 13); [reflexivity|].
  destruct (c =? 9); [reflexivity|].
  destruct (c <? 65536); [apply u_escape_printable|].
  cbv zeta. rewrite forallb_app, !u_escape_printable. reflexivity.
Qed.

Lemma encode_basestring_ascii_printable s :
  forallb printable_ascii (encode_basestring_ascii s) = true.
Proof.
  unfold encode_basestring_ascii. rewrite !forallb_app.
  assert (Hbody : forallb printable_ascii (concat (map escape_char s)) = true).
  { induction s as [|c s IH]; [done|]. cbn [map concat].
    by rewrite forallb_app, escape_char_printable, IH. }
  by rewrite Hbody.
Qed.

Lemma token_object_printable chunk :
  forallb printable_ascii (json_dumps (JObj [(py "token", JStr chunk)])) = true.
Proof.
  change (json_dumps (JObj [(py "token", JStr chunk)]))
    with (py "{" ++ (encode_basestring_ascii (py "token") ++ py ": " ++
                     encode_basestring_ascii chunk) ++ py "}").
  rewrite !forallb_app, !encode_basestring_ascii_printable. reflexivity.
Qed.

Lemma error_object_printable text :
  forallb printable_ascii (json_dumps (JObj [(py "error", JStr text)])) = true.
Proof.
  change (json_dumps (JObj [(py "error", JStr text)]))
    with (py "{" ++ (encode_basestring_ascii (py "error") ++ py ": " ++
                     encode_basestring_ascii text) ++ py "}").
  rewrite !forallb_app, !encode_basestring_ascii_printable. reflexivity.
Qed.

Lemma token_events_framed chunks : Forall well_framed (token_events chunks).
Proof.
  unfold token_events. apply Forall_fmap, Forall_forall. intros c _.
  exists (json_dumps (JObj [(py "token", JStr c)])).
  split; [apply token_object_printable|by left].
Qed.

Lemma error_event_framed e : well_framed (error_event e).
Proof.
  unfold error_event.
  destruct (isinstance RateLimitError e).
  - exists (json_dumps rate_limit_payload). split; [by vm_compute|by right].
  - exists (json_dumps (stream_error_payload e)).
    split; [apply error_object_printable|by right].
Qed.

(** X11. Every record of the stream of any request is well framed:
    it is one [data:] line, or an [event: error] line and one [data:]
    line, followed by a blank line, and the data consists of printable
    ASCII only.  Whatever code points a chunk or the message of an
    exception contains, line breaks included, they cannot break a
    record in two. *)
Theorem stream_records_are_well_framed rag_chain fields q l w :
  dict_lookup (py "query") fields = Some q →
  ∃ events st',
    serve (chat_endpoint (post_json fields)) (mkState (Some rag_chain) l w) =
      (Return (ReceivedStream 200 (py "text/event-stream") events), st')
    ∧ Forall well_framed events.
Proof.
  intros Hq. destruct (serve_query rag_chain fields q l w Hq) as [st' Hrun].
  eexists _, st'. split; [exact Hrun|].
  unfold stream_events. apply Forall_app. split; [apply token_events_framed|].
  destruct (first_raised (stream rag_chain q)); [|done].
  apply Forall_cons. split; [apply error_event_framed|done].
Qed.

Lemma stream_records_are_well_framed_witness :
  dict_lookup (py "query") [(py "query", JStr (py "hi"))] = Some (JStr (py "hi")) ∧
  ∃ events st',
    serve (chat_endpoint (post_json [(py "query", JStr (py "hi"))]))
      (mkState
         (Some (scripted [Yielded (py "line one" ++ nl ++ nl ++ py "data: forged");
                          Raised (mkExc OtherException (py "reset" ++ nl ++ py "by peer"))]))
         [] []) =
      (Return (ReceivedStream 200 (py "text/event-stream") events), st')
    ∧ Forall well_framed events.
Proof.
  split; [reflexivity|].
  exact (stream_records_are_well_framed
           (scripted [Yielded (py "line one" ++ nl ++ nl ++ py "data: forged");
                      Raised (mkExc OtherException (py "reset" ++ nl ++ py "by peer"))])
           [(py "query", JStr (py "hi"))] (JStr (py "hi")) [] [] eq_refl).
Defined.

(** ** More on the construction of the chain *)

Section ConstructionRuns.
Context {V : Type} `{PyFormat V}.
Context {Embeddings VectorStore ChatModel Retriever Prompt : Type}.
Variable env : Config.
Variable clients : @Clients V Embeddings VectorStore ChatModel Retriever Prompt.

Lemma create_rag_chain_incomplete g l w :
  config_complete env = false →
  ∃ text,
    text ∈ incomplete_messages ∧
    create_rag_chain env clients (mkState g l w) =
      (Return None,
       mkState g (l ++ [attempt_record; {| level := ERROR; message := Msg text |}]) w).
Proof.
  unfold config_complete, create_rag_chain, incomplete_messages. intros Hc.
  destruct (py_all (embeddings_group env)).
  2:{ run. eexists. split; [|by rewrite <- app_assoc]. set_solver. }
  destruct (py_all (chat_group env)).
  2:{ run. eexists. split; [|by rewrite <- app_assoc]. set_solver. }
  destruct (py_all (search_group env)); [discriminate|].
  run. eexists. split; [|by rewrite <- app_assoc]. set_solver.
Qed.

Lemma create_rag_chain_complete g l w :
  config_complete env = true →
  create_rag_chain env clients (mkState g l w) =
  match construct env clients with
  | Return rag_chain =>
      (Return (Some rag_chain), mkState g (l ++ [attempt_record; initialized_record]) w)
  | Raise e =>
      (Return None, mkState g (l ++ [attempt_record; construction_failed_record e]) w)
  end.
Proof.
  unfold config_complete, create_rag_chain. intros Hc.
  destruct (py_all (embeddings_group env)); [|discriminate].
  destruct (py_all (chat_group env)); [|discriminate].
  destruct (py_all (search_group env)); [|discriminate].
  destruct (construct env clients); run; by rewrite <- app_assoc.
Qed.

Lemma incomplete_group_has_culprit (group : list (option pystr)) :
  py_all group = false → ∃ v, v ∈ group ∧ (v = None ∨ v = Some []).
Proof.
  unfold py_all. induction group as [|v group IH]; [discriminate|].
  cbn [forallb]. destruct (env_truthy v) eqn:Hv; simpl.
  - intros Hg. destruct (IH Hg) as (v' & Hin & Hv'). exists v'.
    split; [by apply list_elem_of_further|done].
  - intros _. exists v. split; [apply list_elem_of_here|].
    destruct v as [[|c s']|]; [by right|discriminate|by left].
Qed.

(** X12. A variable that is unset or set to the empty string, in any
    of the three groups, is enough for [create_rag_chain] to give up:
    it returns no chain and logs the attempt and one ERROR record.  The
    message of that record is the one of the first group, in the order
    embeddings, chat, search, that holds an unset or empty variable:
    the groups before it are complete. *)
Theorem unset_or_empty_variable_fails v st :
  v ∈ all_variables env →
  v = None ∨ v = Some [] →
  ∃ before group text after,
    groups_in_order env = before ++ (group, text) :: after
    ∧ Forall (λ earlier, py_all earlier.1 = true) before
    ∧ (∃ v', v' ∈ group ∧ (v' = None ∨ v' = Some []))
    ∧ create_rag_chain env clients st =
        (Return None,
         mkState (rag_chain_instance_global st)
           (log st ++ [attempt_record; {| level := ERROR; message := Msg text |}])
           (wire st)).
Proof.
  intros Hin Hv. destruct st as [g l w].
  assert (Hf : env_truthy v = false) by (by destruct Hv as [-> | ->]).
  unfold all_variables in Hin. rewrite !elem_of_app in Hin.
  unfold create_rag_chain, groups_in_order.
  destruct (py_all (embeddings_group env)) eqn:H1.
  2:{ eexists [], (embeddings_group env), _, _. split; [reflexivity|].
      split; [constructor|]. split; [by apply incomplete_group_has_culprit|].
      run. by rewrite <- app_assoc. }
  destruct (py_all (chat_group env)) eqn:H2.
  2:{ eexists [(embeddings_group env, _)], (chat_group env), _, _.
      split; [reflexivity|]. split; [by repeat constructor|].
      split; [by apply incomplete_group_has_culprit|].
      run. by rewrite <- app_assoc. }
  destruct (py_all (search_group env)) eqn:H3.
  2:{ eexists [(embeddings_group env, _); (chat_group env, _)], (search_group env), _, _.
      split; [reflexivity|]. split; [by repeat constructor|].
      split; [by apply incomplete_group_has_culprit|].
      run. by rewrite <- app_assoc. }
  exfalso. unfold py_all in H1, H2, H3. rewrite forallb_forall in H1, H2, H3.
  destruct Hin as [Hin|[Hin|Hin]]; apply list_elem_of_In in Hin;
    [apply H1 in Hin|apply H2 in Hin|apply H3 in Hin]; congruence.
Qed.
End ConstructionRuns.

Lemma unset_or_empty_variable_fails_witness :
  Some ([] : pystr) ∈ all_variables env_empty_key ∧
  (Some ([] : pystr) = None ∨ Some ([] : pystr) = Some []) ∧
  ∃ before group text after,
    groups_in_order env_empty_key = before ++ (group, text) :: after
    ∧ Forall (λ earlier, py_all earlier.1 = true) before
    ∧ (∃ v', v' ∈ group ∧ (v' = None ∨ v' = Some []))
    ∧ create_rag_chain env_empty_key stub_clients initial_state =
        (Return None,
         mkState None
           ([] ++ [attempt_record; {| level := ERROR; message := Msg text |}]) []).
Proof.
  assert (Hin : Some ([] : pystr) ∈ all_variables env_empty_key).
  { unfold all_variables, embeddings_group, chat_group, search_group. simpl.
    do 9 apply list_elem_of_further. apply list_elem_of_here. }
  split; [exact Hin|]. split; [by right|].
  exact (unset_or_empty_variable_fails env_empty_key stub_clients (Some [])
           initial_state Hin (or_intror eq_refl)).
Defined.

Section ConstructionAndStartup.
Context {V : Type} `{PyFormat V}.
Context {Embeddings VectorStore ChatModel Retriever Prompt : Type}.
Variable env : Config.
Variables clients clients' : @Clients V Embeddings VectorStore ChatModel Retriever Prompt.

(** X13. With an incomplete configuration no client is constructed:
    the result and the log of [create_rag_chain] are the same whatever
    the constructors would do. *)
Theorem incomplete_config_constructs_nothing st :
  config_complete env = false →
  create_rag_chain env clients st = create_rag_chain env clients' st.
Proof.
  unfold config_complete, create_rag_chain. intros Hc.
  destruct (py_all (embeddings_group env)); [|reflexivity].
  destruct (py_all (chat_group env)); [|reflexivity].
  destruct (py_all (search_group env)); [discriminate|reflexivity].
Qed.

(** X14. The constructors run in order and the first exception ends
    the block: when the embeddings client is built and the search
    client raises, [create_rag_chain] returns no chain and logs that
    very exception, whatever the later constructors would do. *)
Theorem first_failing_constructor_is_reported embeddings e st :
  config_complete env = true →
  AzureOpenAIEmbeddings clients
    (AZURE_OPENAI_EMBEDDING_DEPLOYMENT_NAME env) (AZURE_OPENAI_ENDPOINT_EMBEDDINGS env)
    (AZURE_OPENAI_API_KEY_EMBEDDINGS env) (AZURE_OPENAI_API_VERSION_EMBEDDINGS env) =
    Return embeddings →
  AzureSearch clients
    (AZURE_AI_SEARCH_ENDPOINT env) (AZURE_AI_SEARCH_API_KEY env)
    (AZURE_AI_SEARCH_INDEX_NAME env) embeddings = Raise e →
  create_rag_chain env clients st =
    (Return None,
     mkState (rag_chain_instance_global st)
       (log st ++ [attempt_record; construction_failed_record e]) (wire st)).
Proof.
  intros Hc He Hs. destruct st as [g l w].
  rewrite (create_rag_chain_complete env clients g l w Hc).
  assert (Hk : construct env clients = Raise e).
  { unfold construct. rewrite He. unfold mbind at 1, Result_bind at 1.
    by rewrite Hs. }
  by rewrite Hk.
Qed.

(** X15. The start-up block stores what [create_rag_chain] returns in
    the global, whatever was there before, and logs the CRITICAL record
    exactly when that is None.  From then on the health endpoint
    answers 200 if the chain was built and 503 if not, and in the
    latter case every request to [chat_endpoint] gets the 500
    not-initialized response. *)
Theorem startup_decides_health st :
  ∃ g records,
    startup env clients st = (Return tt, mkState g (log st ++ records) (wire st))
    ∧ g = (if config_complete env then
             match construct env clients with
             | Return rag_chain => Some rag_chain
             | Raise _ => None
             end
           else None)
    ∧ (g = None ↔ last records = Some critical_record)
    ∧ fst (health_check (mkState g (log st ++ records) (wire st))) =
        Return (match g with
                | Some _ => jsonify healthy_body 200
                | None => jsonify unhealthy_body 503
                end)
    ∧ (g = None →
       ∀ request,
         fst (chat_endpoint request (mkState g (log st ++ records) (wire st))) =
         Return (jsonify not_initialized_body 500)).
Proof.
  destruct st as [g0 l w]. unfold startup. unfold mbind at 1, M_bind at 1.
  destruct (config_complete env) eqn:Hc.
  - rewrite (create_rag_chain_complete env clients g0 l w Hc).
    destruct (construct env clients) as [rag_chain|e].
    + exists (Some rag_chain), [attempt_record; initialized_record].
      split; [reflexivity|]. split; [done|]. split; [split; discriminate|].
      split; [reflexivity|discriminate].
    + exists None, [attempt_record; construction_failed_record e; critical_record].
      split; [run; by rewrite <- app_assoc|]. split; [done|]. split; [done|].
      split; [reflexivity|]. intros _ request. reflexivity.
  - destruct (create_rag_chain_incomplete env clients g0 l w Hc) as (text & _ & ->).
    exists None, [attempt_record; {| level := ERROR; message := Msg text |};
                  critical_record].
    split; [run; by rewrite <- app_assoc|]. split; [done|]. split; [done|].
    split; [reflexivity|]. intros _ request. reflexivity.
Qed.
End ConstructionAndStartup.

Lemma incomplete_config_constructs_nothing_witness :
  config_complete env_empty_key = false ∧
  create_rag_chain env_empty_key stub_clients initial_state =
  create_rag_chain env_empty_key failing_clients initial_state.
Proof.
  split; [reflexivity|].
  exact (incomplete_config_constructs_nothing env_empty_key stub_clients
           failing_clients initial_state eq_refl).
Defined.

Lemma first_failing_constructor_is_reported_witness :
  config_complete demo_env = true ∧
  create_rag_chain demo_env failing_clients initial_state =
    (Return None,
     mkState None ([] ++ [attempt_record; construction_failed_record search_refused]) []).
Proof.
  split; [reflexivity|].
  exact (first_failing_constructor_is_reported demo_env failing_clients tt
           search_refused initial_state eq_refl eq_refl eq_refl).
Defined.

Lemma startup_decides_health_witness :
  ∃ g records,
    startup demo_env failing_clients initial_state =
      (Return tt, mkState g ([] ++ records) [])
    ∧ g = None.
Proof.
  destruct (startup_decides_health demo_env failing_clients initial_state)
    as (g & records & Hrun & Hg & _).
  exists g, records. split; [exact Hrun|exact Hg].
Defined.

(** ** Requests one after the other *)

(** Serving a request never fails and leaves the global as it is. *)
Lemma serve_chat_keeps_global request st :
  ∃ received st',
    serve (chat_endpoint request) st = (Return received, st')
    ∧ rag_chain_instance_global st' = rag_chain_instance_global st.
Proof.
  destruct st as [g l w]. unfold serve. unfold mbind at 1, M_bind at 1.
  destruct (chat_endpoint_outcome request g l w)
    as (response & record & -> & Hcases).
  destruct Hcases as [[_ ->]|[[_ ->]|[[Hg [q ->]]|[[_ (e & _ & _ & ->)]|[_ (e & _ & ->)]]]]];
    try (by eexists _, _).
  destruct Hg as [rag_chain ->]. simpl. run.
  rewrite (generate_stream_run rag_chain q (l ++ [record]) w). simpl.
  by eexists _, _.
Qed.

(** X16. The health endpoint is stable under traffic: any sequence of
    [POST /chat] requests, whatever their bodies and whatever the chain
    does while streaming, is served without an exception and leaves
    the global chain as it was, so [health_check] answers afterwards
    as it did before. *)
Theorem health_is_stable_under_requests requests st :
  ∃ st',
    serve_all requests st = (Return tt, st')
    ∧ rag_chain_instance_global st' = rag_chain_instance_global st
    ∧ fst (health_check st') = fst (health_check st).
Proof.
  revert st. induction requests as [|request requests IH]; intros st.
  - exists st. by repeat split.
  - destruct (serve_chat_keeps_global request st) as (received & st1 & Hrun & Hg).
    destruct (IH st1) as (st' & Hrest & Hg' & Hh).
    exists st'. simpl. unfold mbind at 1, M_bind at 1. rewrite Hrun.
    split; [exact Hrest|]. split; [congruence|].
    rewrite Hh. unfold health_check. run. rewrite Hg.
    by destruct (rag_chain_instance_global st).
Qed.

(** ** More on the context formatter *)

Section FormatDocsMore.
Context {V : Type} `{PyFormat V}.

Lemma format_docs_starts_with_source (doc : Document V) docs :
  ∃ rest, format_docs (doc :: docs) = 83 :: rest.
Proof.
  destruct docs as [|doc' docs]; eexists; unfold format_docs;
    cbn [map str_join]; unfold format_doc; reflexivity.
Qed.

(** X17. The sentinel text stands for the empty retrieval and for
    nothing else: [format_docs] returns it exactly when the sequence of
    documents is empty, whatever the documents contain. *)
Theorem sentinel_only_for_no_documents (docs : list (Document V)) :
  format_docs docs = no_context ↔ docs = [].
Proof.
  split; [|by intros ->].
  destruct docs as [|doc docs]; [done|]. intros Heq.
  destruct (format_docs_starts_with_source doc docs) as [rest Hs].
  rewrite Hs in Heq. discriminate.
Qed.

(** X18. Only the [source] entry of the metadata and the text of a
    document reach the context: two sequences of documents that agree
    on these give the same text, so adding or changing any other entry
    of the metadata changes nothing. *)
Theorem context_depends_on_source_and_text (docs docs' : list (Document V)) :
  Forall2 (λ d d', page_content d = page_content d' ∧
                   metadata d !! py "source" = metadata d' !! py "source")
          docs docs' →
  format_docs docs = format_docs docs'
  ∧ ∀ (doc : Document V) key v,
      key ≠ py "source" →
      format_doc (mkDocument (page_content doc) (<[key:=v]> (metadata doc))) =
      format_doc doc.
Proof.
  intros Hall. split.
  - assert (Hmap : map format_doc docs = map format_doc docs').
    { induction Hall as [|d d' ds ds' [Hc Hs] _ IH]; [done|]. simpl.
      f_equal; [|exact IH]. unfold format_doc. by rewrite Hc, Hs. }
    destruct Hall; [done|]. unfold format_docs. by rewrite Hmap.
  - intros doc key v Hk. unfold format_doc. simpl.
    by rewrite lookup_insert_ne.
Qed.
End FormatDocsMore.

Lemma context_depends_on_source_and_text_witness :
  format_docs
    [mkDocument (V:=pystr) (py "streams tokens")
       {[ py "source" := py "guide.md"; py "page" := py "3" ]}] =
  format_docs
    [mkDocument (V:=pystr) (py "streams tokens") {[ py "source" := py "guide.md" ]}].
Proof.
  apply (context_depends_on_source_and_text
           [mkDocument (V:=pystr) (py "streams tokens")
              {[ py "source" := py "guide.md"; py "page" := py "3" ]}]
           [mkDocument (V:=pystr) (py "streams tokens") {[ py "source" := py "guide.md" ]}]).
  constructor; [|constructor]. split; reflexivity.
Defined.

(** ** Plain chunks and empty chunks *)

Lemma escape_char_plain c : plain_ascii c = true → escape_char c = [c].
Proof.
  unfold plain_ascii, printable_ascii, escape_char.
  intros [[Hp H34]%andb_prop H92]%andb_prop.
  apply negb_true_iff in H34, H92. by rewrite H92, H34, Hp.
Qed.

Lemma escape_plain s :
  forallb plain_ascii s = true → concat (map escape_char s) = s.
Proof.
  induction s as [|c s IH]; [done|]. cbn [forallb map concat].
  intros [Hc Hs]%andb_prop. by rewrite (escape_char_plain c Hc), IH.
Qed.

(** X19. A chunk of printable ASCII without double quote and backslash
    travels unchanged: its record is the text [data: ], the JSON object
    with the member [token] holding the chunk between double quotes,
    and a blank line. *)
Theorem plain_chunk_travels_unchanged chunk :
  forallb plain_ascii chunk = true →
  sse_token chunk =
  py "data: {" ++ dquote ++ py "token" ++ dquote ++ py ": " ++
  dquote ++ chunk ++ dquote ++ py "}" ++ nl ++ nl.
Proof.
  intros Hp. rewrite sse_token_text. unfold encode_basestring_ascii.
  rewrite (escape_plain chunk Hp). by rewrite <- !app_assoc.
Qed.

Lemma plain_chunk_travels_unchanged_witness :
  forallb plain_ascii (py "Hello, world!") = true ∧
  sse_token (py "Hello, world!") =
  py "data: {" ++ dquote ++ py "token" ++ dquote ++ py ": " ++
  dquote ++ py "Hello, world!" ++ dquote ++ py "}" ++ nl ++ nl.
Proof.
  split; [reflexivity|].
  exact (plain_chunk_travels_unchanged (py "Hello, world!") eq_refl).
Defined.

Lemma token_events_nil chunks :
  token_events chunks = [] ↔ Forall (λ c, c = []) chunks.
Proof.
  unfold token_events. split.
  - induction chunks as [|[|x c] cs IH]; [done| |].
    + rewrite filter_cons_False by (intros ?; done). intros Hn.
      constructor; [done|by apply IH].
    + rewrite filter_cons_True by done. discriminate.
  - induction 1 as [|c cs -> _ IH]; [done|].
    by rewrite filter_cons_False by (intros ?; done).
Qed.

Lemma token_events_origin chunks record :
  record ∈ token_events chunks →
  ∃ chunk, chunk ∈ chunks ∧ chunk ≠ [] ∧ record = sse_token chunk.
Proof.
  unfold token_events. intros (chunk & -> & Hin)%list_elem_of_fmap.
  apply list_elem_of_filter in Hin as [Hne Hin]. by exists chunk.
Qed.

(** X20. When the stream of the chain ends without raising, the body
    of the response is the token records of the non-empty chunks and
    nothing else: every record is the token record of a non-empty
    chunk of the stream, so there is no error record and no closing
    record; the body is empty exactly when every chunk was empty, and
    then the client receives the 200 headers and nothing else. *)
Theorem silent_stream_has_empty_body rag_chain fields q chunks l w :
  dict_lookup (py "query") fields = Some q →
  stream rag_chain q = map Yielded chunks →
  ∃ events st',
    serve (chat_endpoint (post_json fields)) (mkState (Some rag_chain) l w) =
      (Return (ReceivedStream 200 (py "text/event-stream") events), st')
    ∧ events = token_events chunks
    ∧ (∀ record, record ∈ events →
         ∃ chunk, chunk ∈ chunks ∧ chunk ≠ [] ∧ record = sse_token chunk)
    ∧ count_error_events events = 0%nat
    ∧ (events = [] ↔ Forall (λ c, c = []) chunks).
Proof.
  intros Hq Hs. destruct (serve_query rag_chain fields q l w Hq) as [st' Hrun].
  assert (Hev : stream_events (stream rag_chain q) = token_events chunks).
  { rewrite Hs, <- (app_nil_r (map Yielded chunks)), stream_events_yielded.
    unfold stream_events at 1. simpl. by rewrite !app_nil_r. }
  rewrite Hev in Hrun.
  eexists _, st'. split; [exact Hrun|]. split; [reflexivity|].
  split; [apply token_events_origin|].
  split; [|apply token_events_nil].
  rewrite <- (app_nil_r (token_events chunks)). by rewrite count_error_events_tokens.
Qed.

Lemma silent_stream_has_empty_body_witness :
  dict_lookup (py "query") [(py "query", JStr (py "hi"))] = Some (JStr (py "hi")) ∧
  stream (scripted (map Yielded [[]; []])) (JStr (py "hi")) = map Yielded [[]; []] ∧
  ∃ events st',
    serve (chat_endpoint (post_json [(py "query", JStr (py "hi"))]))
      (mkState (Some (scripted (map Yielded [[]; []]))) [] []) =
      (Return (ReceivedStream 200 (py "text/event-stream") events), st')
    ∧ events = [].
Proof.
  split; [reflexivity|]. split; [reflexivity|].
  destruct (silent_stream_has_empty_body (scripted (map Yielded [[]; []]))
              [(py "query", JStr (py "hi"))] (JStr (py "hi")) [[]; []] [] []
              eq_refl eq_refl)
    as (events & st' & Hrun & _ & _ & _ & Hempty).
  exists events, st'. split; [exact Hrun|].
  apply Hempty. repeat constructor.
Defined.
